(** * astrbot_plugin_logger: log selection and formatting

    A shallow embedding of [main.py]: the level classifier
    [LogLevel.from_input], the selector [_filter_logs_by_level] and
    [_slice_logs], the formatter [_format_log] and the keyword match of
    [on_log_search], followed by the properties of each.

    Text model.  The development covers ASCII text: a Python [str] is a
    [string] of 7-bit characters, and the character classes below are
    Python's on that range ([str.isspace], [str.isdigit], [str.upper],
    [str.lower]).  A character above 127 is carried through unchanged and
    belongs to no class; Python's Unicode tables are not modelled.
    [int] keeps the limit of 4300 digits that the interpreter starts
    with.
    A log record is a Python [dict] with string values, modelled as a
    [gmap string string]; a key may be absent. *)

From Stdlib Require Import ZArith Ascii String Lia.
From stdpp Require Import base option list gmap strings.

Local Open Scope Z_scope.

(** ** Exceptions and results *)

Inductive exn : Type := ValueError.

Inductive res (A : Type) : Type :=
| Ok (a : A)
| Raise (e : exn).
Arguments Ok {A} a.
Arguments Raise {A} e.

#[global] Instance res_ret : MRet res := fun A a => Ok a.
#[global] Instance res_bind : MBind res := fun A B f m =>
  match m with
  | Ok a => f a
  | Raise e => Raise e
  end.

(** ** Python's built-in string operations *)

Module PyStr.

Definition code (c : ascii) : N := N_of_ascii c.

Definition ESC : ascii := ascii_of_N 27.
Definition LF : ascii := ascii_of_N 10.

(** [str.isspace] on one character: TAB, LF, VT, FF, CR, FS, GS, RS, US
    and the space. *)
Definition isspace (c : ascii) : bool :=
  let n := code c in
  ((9 <=? n) && (n <=? 13) || (28 <=? n) && (n <=? 32))%N.

Definition is_digit (c : ascii) : bool :=
  let n := code c in ((48 <=? n) && (n <=? 57))%N.

Definition digit_val (c : ascii) : option Z :=
  if is_digit c then Some (Z.of_N (code c) - 48) else None.

(** [s.isdigit()]: every character is a digit and there is at least one. *)
Fixpoint all_digits (s : string) : bool :=
  match s with
  | EmptyString => true
  | String c r => is_digit c && all_digits r
  end.

Definition isdigit (s : string) : bool :=
  match s with
  | EmptyString => false
  | String _ _ => all_digits s
  end.

(** [bool(s)] for a string: non-empty. *)
Definition truthy (s : string) : bool :=
  match s with
  | EmptyString => false
  | String _ _ => true
  end.

Fixpoint lstrip (s : string) : string :=
  match s with
  | EmptyString => EmptyString
  | String c r => if isspace c then lstrip r else s
  end.

Fixpoint rstrip (s : string) : string :=
  match s with
  | EmptyString => EmptyString
  | String c r =>
      match rstrip r with
      | EmptyString => if isspace c then EmptyString else String c EmptyString
      | r' => String c r'
      end
  end.

Definition strip (s : string) : string := rstrip (lstrip s).

Definition upper_char (c : ascii) : ascii :=
  let n := code c in
  if ((97 <=? n) && (n <=? 122))%N then ascii_of_N (n - 32) else c.

Definition lower_char (c : ascii) : ascii :=
  let n := code c in
  if ((65 <=? n) && (n <=? 90))%N then ascii_of_N (n + 32) else c.

Fixpoint map_chars (f : ascii -> ascii) (s : string) : string :=
  match s with
  | EmptyString => EmptyString
  | String c r => String (f c) (map_chars f r)
  end.

Definition upper : string -> string := map_chars upper_char.
Definition lower : string -> string := map_chars lower_char.

Fixpoint startswith (p s : string) : bool :=
  match p, s with
  | EmptyString, _ => true
  | String a p', String b s' => Ascii.eqb a b && startswith p' s'
  | String _ _, EmptyString => false
  end.

(** [needle in hay]: the needle starts at some position of [hay]. *)
Fixpoint contains (needle hay : string) : bool :=
  startswith needle hay ||
  match hay with
  | EmptyString => false
  | String _ r => contains needle r
  end.

(** [s.split(sep, 1)] for a one-character separator: at most one cut,
    at the first occurrence. *)
Fixpoint split1 (sep : ascii) (s : string) : list string :=
  match s with
  | EmptyString => [EmptyString]
  | String c r =>
      if Ascii.eqb c sep then [EmptyString; r]
      else match split1 sep r with
           | x :: xs => String c x :: xs
           | [] => []
           end
  end.

(** Unpacking [a, b = xs]. *)
Definition unpack2 {A} (xs : list A) : res (A * A) :=
  match xs with
  | [a; b] => Ok (a, b)
  | _ => Raise ValueError
  end.

(** [int(s)] in base 10: surrounding blanks, an optional sign, then
    digits which single underscores may separate.  A literal of more
    digits than the interpreter's limit is refused like a malformed
    one. *)
Definition is_blank (c : ascii) : bool :=
  let n := code c in ((9 <=? n) && (n <=? 13) || (n =? 32))%N.

Fixpoint lskip (s : string) : string :=
  match s with
  | EmptyString => EmptyString
  | String c r => if is_blank c then lskip r else s
  end.

Fixpoint all_blank (s : string) : bool :=
  match s with
  | EmptyString => true
  | String c r => is_blank c && all_blank r
  end.

Fixpoint int_body (acc : Z) (after_digit : bool) (s : string) : res Z :=
  match s with
  | EmptyString => if after_digit then Ok acc else Raise ValueError
  | String c r =>
      match digit_val c with
      | Some d => int_body (10 * acc + d) true r
      | None =>
          if after_digit && Ascii.eqb c "_" then int_body acc false r
          else if after_digit && all_blank s then Ok acc
          else Raise ValueError
      end
  end.

(** [sys.get_int_max_str_digits()], as the interpreter starts. *)
Definition int_max_str_digits : nat := 4300.

Fixpoint count_digits (s : string) : nat :=
  match s with
  | EmptyString => 0
  | String c r => ((if is_digit c then 1 else 0) + count_digits r)%nat
  end.

Definition int (s : string) : res Z :=
  match lskip s with
  | EmptyString => Raise ValueError
  | String c r =>
      let signed := Ascii.eqb c "-" || Ascii.eqb c "+" in
      let body := if signed then r else String c r in
      if (int_max_str_digits <? count_digits body)%nat then Raise ValueError
      else if Ascii.eqb c "-" then n ← int_body 0 false r; mret (- n)
      else if Ascii.eqb c "+" then int_body 0 false r
      else int_body 0 false (String c r)
  end.

(** The number a string of digits denotes, most significant first. *)
Fixpoint dec (acc : Z) (s : string) : Z :=
  match s with
  | EmptyString => acc
  | String c r => dec (10 * acc + (Z.of_N (code c) - 48)) r
  end.

Definition decimal (s : string) : Z := dec 0 s.

Fixpoint all_space (s : string) : bool :=
  match s with
  | EmptyString => true
  | String c r => isspace c && all_space r
  end.

Fixpoint has_space (s : string) : bool :=
  match s with
  | EmptyString => false
  | String c r => isspace c || has_space r
  end.

(** [n] occurs in [h] as a contiguous run. *)
Definition is_substring (n h : string) : Prop :=
  exists pre post : string, h = pre +:+ n +:+ post.

(** Every character is a 7-bit one. *)
Fixpoint ascii_only (s : string) : bool :=
  match s with
  | EmptyString => true
  | String c r => (code c <? 128)%N && ascii_only r
  end.

(** [c * n]: the character [n] times. *)
Fixpoint repeat (c : ascii) (n : nat) : string :=
  match n with
  | O => EmptyString
  | S n' => String c (repeat c n')
  end.

(** [sep.join(parts)] *)
Fixpoint join (sep : string) (parts : list string) : string :=
  match parts with
  | [] => EmptyString
  | x :: rest =>
      match rest with
      | [] => x
      | _ :: _ => x +:+ sep +:+ join sep rest
      end
  end.

End PyStr.

(** ** Python's sequence slicing [l[start:stop]] *)

Module PySeq.

(** A bound counted from the end when negative, then clipped to
    [0 .. len]. *)
Definition clip (len i : Z) : Z :=
  if i <? 0 then Z.max (i + len) 0 else Z.min i len.

Definition slice {A} (l : list A) (start stop : option Z) : list A :=
  let len := Z.of_nat (length l) in
  let lo := from_option (clip len) 0 start in
  let hi := from_option (clip len) len stop in
  take (Z.to_nat (hi - lo)) (drop (Z.to_nat lo) l).

(** The last [n] elements, all of them when [n] exceeds the length. *)
Definition last_n {A} (n : nat) (l : list A) : list A :=
  drop (length l - n) l.

End PySeq.

(** ** [class LogLevel(Enum)] *)

Module LogLevel.

Inductive t : Type := ALL | DEBUG | INFO | WARNING | ERROR.

Definition value (item : t) : string :=
  match item with
  | ALL => "ALL"
  | DEBUG => "DEBUG"
  | INFO => "INFO"
  | WARNING => "WARNING"
  | ERROR => "ERROR"
  end.

(** Iteration order of the class: definition order. *)
Definition members : list t := [ALL; DEBUG; INFO; WARNING; ERROR].

Definition eqb (a b : t) : bool :=
  match a, b with
  | ALL, ALL | DEBUG, DEBUG | INFO, INFO
  | WARNING, WARNING | ERROR, ERROR => true
  | _, _ => false
  end.

(** [from_input(value)]; [None] is Python's [None], the result [None]
    is the method's [return None]. *)
Definition from_input (value_ : option string) : option t :=
  match value_ with
  | None => Some ALL
  | Some v =>
      if negb (PyStr.truthy v) then Some ALL
      else
        let v := PyStr.upper v in
        List.find (fun item => String.eqb (value item) v) members
  end.

(** [choices()] *)
Definition choices : string := PyStr.join " / " (List.map value members).

End LogLevel.

(** ** [class LoggerPlugin(Star)]: the helper methods *)

Module LoggerPlugin.
Import PyStr.

(** [_slice_logs(logs, limit, default_limit)] *)
Definition _slice_logs {A} (logs : list A) (limit : string)
    (default_limit : Z) : res (list A) :=
  let total := Z.of_nat (length logs) in
  if negb (truthy limit) then
    mret (PySeq.slice logs (Some (- default_limit)) None)
  else
    let limit := strip limit in
    if isdigit limit then
      n ← int limit;
      mret (PySeq.slice logs (Some (- n)) None)
    else if contains "-" limit then
      '(left_, right_) ← unpack2 (split1 "-" limit);
      start ← (if isdigit left_ then n ← int left_; mret (n - 1) else mret 0);
      end_ ← (if isdigit right_ then int right_ else mret total);
      let start := Z.max start 0 in
      let end_ := Z.min end_ total in
      mret (PySeq.slice logs (Some start) (Some end_))
    else
      mret (PySeq.slice logs (Some (- default_limit)) None).

(** The pattern [\x1b\[[0-9;]*m]. *)
Definition is_param (c : ascii) : bool := is_digit c || Ascii.eqb c ";".

Fixpoint skip_params (s : string) : string :=
  match s with
  | EmptyString => EmptyString
  | String c r => if is_param c then skip_params r else s
  end.

(** A match of the pattern at the head of [s]: what follows it.  The
    class [[0-9;]] excludes [m], so the greedy run is the only
    candidate. *)
Definition ansi_match (s : string) : option string :=
  match s with
  | String e (String b p) =>
      if Ascii.eqb e ESC && Ascii.eqb b "[" then
        match skip_params p with
        | String d r => if Ascii.eqb d "m" then Some r else None
        | EmptyString => None
        end
      else None
  | _ => None
  end.

Fixpoint all_params (s : string) : bool :=
  match s with
  | EmptyString => true
  | String c r => is_param c && all_params r
  end.

(** Some position of [s] starts a match of the pattern. *)
Fixpoint has_match (s : string) : bool :=
  match s with
  | EmptyString => false
  | String _ r => bool_decide (is_Some (ansi_match s)) || has_match r
  end.

(** The text ends here or goes on with [ESC]: no match runs into it. *)
Definition esc_headed (s : string) : Prop :=
  s = EmptyString \/ exists r, s = String ESC r.

(** After [ESC] and the bracket: the run of parameters and the final
    [m].  On a match the scan goes on with [resume] behind it;
    otherwise [keep] stands for the text from the [ESC] on. *)
Definition after_params (resume : string -> string) (keep : string)
    : string -> string :=
  fix params (t : string) : string :=
    match t with
    | EmptyString => keep
    | String d t' =>
        if is_param d then params t'
        else if Ascii.eqb d "m" then resume t'
        else keep
    end.

(** [ansi.sub] with the empty replacement: the matches are found left to
    right, each search resuming after the previous match; the text
    between them is kept. *)
Fixpoint ansi_sub (s : string) : string :=
  match s with
  | EmptyString => EmptyString
  | String c r =>
      let keep := String c (ansi_sub r) in
      match r with
      | String b p =>
          if Ascii.eqb c ESC && Ascii.eqb b "[" then
            after_params ansi_sub keep p
          else keep
      | EmptyString => keep
      end
  end.

(** [_format_log(log)] *)
Definition _format_log (log : gmap string string) : string :=
  let text := rstrip (ansi_sub (default EmptyString (log !! "data"))) in
  let level := upper (default "UNKNOWN" (log !! "level")) in
  if String.eqb level (LogLevel.value LogLevel.ERROR) then
    "```" +:+ String LF (text +:+ String LF "```")
  else if String.eqb level (LogLevel.value LogLevel.WARNING) then
    "**" +:+ text +:+ "**"
  else if String.eqb level (LogLevel.value LogLevel.DEBUG) then
    text
  else
    "> " +:+ text.

(** [log.get("level") == level.value] *)
Definition level_is (name : string) (log : gmap string string) : bool :=
  match log !! "level" with
  | Some v => String.eqb v name
  | None => false
  end.

(** [_filter_logs_by_level(logs, level)] *)
Definition _filter_logs_by_level (logs : list (gmap string string))
    (level : LogLevel.t) : list (gmap string string) :=
  if LogLevel.eqb level LogLevel.ALL then logs
  else List.filter (level_is (LogLevel.value level)) logs.

(** [on_log_search]: the list [matched]. *)
Definition matched (logs : list (gmap string string)) (keyword : string)
    : list (gmap string string) :=
  let keyword_lower := lower keyword in
  List.filter
    (fun log => contains keyword_lower
                  (lower (default EmptyString (log !! "data"))))
    logs.

End LoggerPlugin.

(** ** The selection spec, in the specification's words *)

Module Spec.
Import PyStr.

Fixpoint count_char (ch : ascii) (s : string) : nat :=
  match s with
  | EmptyString => 0
  | String c r => (if Ascii.eqb c ch then 1 else 0) + count_char ch r
  end.

(** A range: a single [-] separating exactly two parts. *)
Definition single_dash_range (spec : string) : bool :=
  Nat.eqb (count_char "-" spec) 1.

(** A plain non-negative integer string, after trimming. *)
Definition plain_count (spec : string) : bool := isdigit (strip spec).

(** Any other malformed spec: neither empty, nor a plain count, nor a
    single-dash range. *)
Definition malformed (spec : string) : bool :=
  truthy spec && negb (plain_count spec) && negb (single_dash_range spec).

End Spec.

(** ** [class LoggerPlugin(Star)]: the command handlers

    The host and the renderer are collaborators: [get_logs] is the
    outcome of [self.context.get_logs()], and [self.style], when set, is
    a function from the markup to the outcome of rendering and saving it.
    The message literals are kept as their UTF-8 bytes. *)

Module Commands.
Import PyStr LoggerPlugin.

Inductive error : Type :=
| Uncaught (e : exn)
| RuntimeError (msg : string)
| HostError (what : string).

Inductive outcome (A : Type) : Type :=
| Return (a : A)
| Throw (e : error).
Arguments Return {A} a.
Arguments Throw {A} e.

(** What a handler yields to the host. *)
Inductive component : Type := Image_fromFileSystem (path : string).

Inductive reply : Type :=
| plain_result (text : string)
| chain_result (chain : list component).

(** [initialize()]: the style is set when loading succeeds and stays
    [None] otherwise. *)
Definition initialize (load : outcome (string -> outcome string))
    : option (string -> outcome string) :=
  match load with
  | Return style => Some style
  | Throw _ => None
  end.

(** [_t2i(text)] *)
Definition _t2i (style : option (string -> outcome string)) (text : string)
    : outcome string :=
  match style with
  | None => Throw (RuntimeError "pillowmd 未初始化")
  | Some render => render text
  end.

(** [_safe_get_logs()] *)
Definition _safe_get_logs (get_logs : outcome (list (gmap string string)))
    : list (gmap string string) :=
  match get_logs with
  | Return logs => logs
  | Throw _ => []
  end.

(** [bool(logs)] for a list. *)
Definition nonempty {A} (l : list A) : bool :=
  match l with
  | [] => false
  | _ :: _ => true
  end.

(** [on_log(event, level, limit)]: the one reply it yields, or the
    exception that ends it. *)
Definition on_log (get_logs : outcome (list (gmap string string)))
    (log_limit : Z) (style : option (string -> outcome string))
    (level limit : string) : outcome reply :=
  let logs := _safe_get_logs get_logs in
  match LogLevel.from_input (Some level) with
  | None =>
      Return (plain_result ("仅支持等级：" +:+ LogLevel.choices))
  | Some log_level =>
      let logs := _filter_logs_by_level logs log_level in
      match _slice_logs logs limit log_limit with
      | Raise e => Throw (Uncaught e)
      | Ok logs =>
          if negb (nonempty logs) then Return (plain_result "暂无日志")
          else
            let formatted := List.map _format_log logs in
            match _t2i style (join (String LF EmptyString) formatted) with
            | Throw e => Throw e
            | Return img_path =>
                Return (chain_result [Image_fromFileSystem img_path])
            end
      end
  end.

(** [on_log_search(event, keyword)] *)
Definition on_log_search (get_logs : outcome (list (gmap string string)))
    (style : option (string -> outcome string)) (keyword : string)
    : outcome reply :=
  let logs := _safe_get_logs get_logs in
  let matched_ := matched logs keyword in
  if negb (nonempty matched_) then
    Return (plain_result ("未找到包含 `" +:+ keyword +:+ "` 的日志"))
  else
    let formatted := List.map _format_log matched_ in
    match _t2i style (join (String LF EmptyString) formatted) with
    | Throw e => Throw e
    | Return img_path => Return (chain_result [Image_fromFileSystem img_path])
    end.

End Commands.

(** * Properties *)

Lemma bind_Ok {A B} (a : A) (f : A -> res B) : Ok a ≫= f = f a.
Proof. done. Qed.

(** ** Strings *)

Section StrFacts.
Import PyStr.

Lemma sapp_cons (c : ascii) (a b : string) :
  String c a +:+ b = String c (a +:+ b).
Proof. done. Qed.

Lemma sapp_nil_r (s : string) : s +:+ EmptyString = s.
Proof. induction s as [|c r IH]; [done|]. by rewrite sapp_cons, IH. Qed.

Lemma slength_app (a b : string) :
  String.length (a +:+ b) = (String.length a + String.length b)%nat.
Proof. induction a as [|x a IH]; [done|]. rewrite sapp_cons. cbn. lia. Qed.

Lemma sapp_assoc (a b c : string) : (a +:+ b) +:+ c = a +:+ b +:+ c.
Proof. induction a as [|x a IH]; [done|]. by rewrite !sapp_cons, IH. Qed.

Lemma rstrip_cons (c : ascii) (r : string) :
  rstrip (String c r) =
    if isspace c && all_space r then EmptyString else String c (rstrip r).
Proof.
  revert c. induction r as [|d r IH]; intros c.
  - cbn. by destruct (isspace c).
  - change (rstrip (String c (String d r))) with
      (match rstrip (String d r) with
       | EmptyString =>
           if isspace c then EmptyString else String c EmptyString
       | r' => String c r'
       end).
    rewrite IH. cbn [all_space].
    destruct (isspace d && all_space r); [|by rewrite andb_false_r].
    by rewrite andb_true_r.
Qed.

Lemma rstrip_nil_iff (s : string) :
  rstrip s = EmptyString <-> all_space s = true.
Proof.
  destruct s as [|c r]; [done|]. rewrite rstrip_cons. cbn [all_space].
  by destruct (isspace c && all_space r).
Qed.

Lemma all_space_rstrip (s : string) : all_space (rstrip s) = all_space s.
Proof.
  induction s as [|c r IH]; [done|]. rewrite rstrip_cons. cbn [all_space].
  destruct (isspace c) eqn:Hc; cbn.
  - destruct (all_space r); [done|]. cbn. by rewrite Hc.
  - by rewrite Hc.
Qed.

Lemma rstrip_idem (s : string) : rstrip (rstrip s) = rstrip s.
Proof.
  induction s as [|c r IH]; [done|]. rewrite rstrip_cons.
  destruct (isspace c && all_space r) eqn:E; [done|].
  by rewrite rstrip_cons, all_space_rstrip, E, IH.
Qed.

Lemma lstrip_head (s : string) :
  lstrip s = EmptyString \/
  exists c r, lstrip s = String c r /\ isspace c = false.
Proof.
  induction s as [|c r IH]; [by left|]. cbn.
  destruct (isspace c) eqn:Hc; [done|]. right. by exists c, r.
Qed.

Lemma lstrip_rstrip_lstrip (s : string) :
  lstrip (rstrip (lstrip s)) = rstrip (lstrip s).
Proof.
  destruct (lstrip_head s) as [->|(c & r & -> & Hc)]; [done|].
  rewrite rstrip_cons, Hc. cbn. by rewrite Hc.
Qed.

Lemma strip_idem (s : string) : strip (strip s) = strip s.
Proof.
  unfold strip. by rewrite lstrip_rstrip_lstrip, rstrip_idem.
Qed.

Lemma lstrip_no_space (s : string) : has_space s = false -> lstrip s = s.
Proof.
  destruct s as [|c r]; [done|]. cbn. by destruct (isspace c).
Qed.

Lemma rstrip_no_space (s : string) : has_space s = false -> rstrip s = s.
Proof.
  induction s as [|c r IH]; [done|]. cbn [has_space]. intros H.
  apply orb_false_iff in H as [Hc Hr].
  by rewrite rstrip_cons, Hc, IH.
Qed.

Lemma strip_no_space (s : string) : has_space s = false -> strip s = s.
Proof.
  intros H. unfold strip. by rewrite lstrip_no_space, rstrip_no_space.
Qed.

Lemma lstrip_all_space (ws : string) :
  all_space ws = true -> lstrip ws = EmptyString.
Proof.
  induction ws as [|c ws IH]; [done|]. cbn. intros H.
  apply andb_true_iff in H as [-> Hws]. by apply IH.
Qed.

Lemma lstrip_app_space (ws s : string) :
  all_space ws = true -> lstrip (ws +:+ s) = lstrip s.
Proof.
  induction ws as [|c ws IH]; [done|]. cbn [all_space]. intros H.
  apply andb_true_iff in H as [Hc Hws].
  rewrite sapp_cons. cbn. by rewrite Hc, IH.
Qed.

Lemma all_space_app (a b : string) :
  all_space (a +:+ b) = all_space a && all_space b.
Proof.
  induction a as [|c a IH]; [done|]. rewrite sapp_cons. cbn.
  by rewrite IH, andb_assoc.
Qed.

Lemma rstrip_app_space (s ws : string) :
  all_space ws = true -> rstrip (s +:+ ws) = rstrip s.
Proof.
  intros Hws. induction s as [|c s IH].
  - by apply rstrip_nil_iff.
  - rewrite sapp_cons, !rstrip_cons, all_space_app, Hws, andb_true_r.
    by rewrite IH.
Qed.

Lemma strip_padded (ws1 s ws2 : string) :
  all_space ws1 = true -> all_space ws2 = true -> has_space s = false ->
  strip (ws1 +:+ s +:+ ws2) = s.
Proof.
  intros H1 H2 Hs. unfold strip. rewrite lstrip_app_space by done.
  destruct s as [|c r].
  - change (EmptyString +:+ ws2) with ws2. by rewrite lstrip_all_space.
  - pose proof Hs as Hs'. cbn in Hs'.
    apply orb_false_iff in Hs' as [Hc _].
    rewrite sapp_cons. cbn [lstrip]. rewrite Hc, <- sapp_cons.
    rewrite rstrip_app_space by done. by apply rstrip_no_space.
Qed.

(** *** Digits and [int] *)

Lemma digit_char (c : ascii) :
  is_digit c = true ->
  digit_val c = Some (Z.of_N (code c) - 48) /\ isspace c = false /\
  is_blank c = false /\ Ascii.eqb c "-" = false /\
  Ascii.eqb c "+" = false /\ 0 <= Z.of_N (code c) - 48.
Proof. by destruct c as [[] [] [] [] [] [] [] []]. Qed.

Lemma all_digits_no_space (s : string) :
  all_digits s = true -> has_space s = false.
Proof.
  induction s as [|c r IH]; [done|]. cbn. intros H.
  apply andb_true_iff in H as [Hc Hr].
  destruct (digit_char c Hc) as (_ & -> & _). by apply IH.
Qed.

Lemma isdigit_all_digits (s : string) :
  isdigit s = true -> all_digits s = true.
Proof. by destruct s. Qed.

Lemma int_body_digits (s : string) (acc : Z) (b : bool) :
  all_digits s = true -> (b = true \/ s <> EmptyString) ->
  int_body acc b s = Ok (dec acc s).
Proof.
  revert acc b. induction s as [|c r IH]; intros acc b H Hb.
  - by destruct Hb as [->|?].
  - cbn in H. apply andb_true_iff in H as [Hc Hr].
    destruct (digit_char c Hc) as (Hv & _). cbn. rewrite Hv.
    apply IH; [done|by left].
Qed.

Lemma count_digits_all (s : string) :
  all_digits s = true -> count_digits s = String.length s.
Proof.
  induction s as [|c r IH]; [done|]. cbn [all_digits]. intros H.
  apply andb_true_iff in H as [Hc Hr].
  cbn [count_digits String.length]. by rewrite Hc, IH.
Qed.

(** Behind [isdigit], [int] only checks the number of digits. *)
Lemma int_isdigit (s : string) :
  isdigit s = true ->
  int s = if (int_max_str_digits <? String.length s)%nat
          then Raise ValueError else Ok (decimal s).
Proof.
  destruct s as [|c r]; [done|]. intros H. pose proof H as H'.
  change (all_digits (String c r) = true) in H'.
  pose proof (count_digits_all _ H') as Hn.
  cbn [all_digits] in H'. apply andb_true_iff in H' as [Hc Hr].
  destruct (digit_char c Hc) as (_ & _ & Hb & Hm & Hp & _).
  unfold int. cbn [lskip]. rewrite Hb, Hm, Hp. cbn [orb]. cbv zeta.
  rewrite Hn.
  destruct (int_max_str_digits <? String.length (String c r))%nat; [done|].
  apply int_body_digits; [done|by right].
Qed.

Lemma int_isdigit_Ok (s : string) (k : Z) :
  isdigit s = true -> int s = Ok k -> k = decimal s.
Proof.
  intros H. rewrite int_isdigit by done.
  destruct (int_max_str_digits <? String.length s)%nat; [done|].
  by intros [= <-].
Qed.

Lemma dec_lower_bound (s : string) (acc : Z) :
  all_digits s = true -> 0 <= acc -> acc <= dec acc s.
Proof.
  revert acc. induction s as [|c r IH]; intros acc H Hacc; [done|].
  cbn in H. apply andb_true_iff in H as [Hc Hr].
  destruct (digit_char c Hc) as (_ & _ & _ & _ & _ & Hd). cbn.
  etrans; [|apply IH; [done|lia]]. lia.
Qed.

Lemma decimal_nonneg (s : string) : isdigit s = true -> 0 <= decimal s.
Proof.
  intros H. apply dec_lower_bound; [by apply isdigit_all_digits|done].
Qed.

(** *** The separator of a range *)

Lemma contains_char (ch c : ascii) (r : string) :
  contains (String ch EmptyString) (String c r) =
    Ascii.eqb ch c || contains (String ch EmptyString) r.
Proof. cbn. by rewrite andb_true_r. Qed.

Lemma contains_char_app (ch : ascii) (l r : string) :
  contains (String ch EmptyString) (l +:+ String ch r) = true.
Proof.
  induction l as [|c l IH].
  - change (EmptyString +:+ String ch r) with (String ch r).
    by rewrite contains_char, Ascii.eqb_refl.
  - by rewrite sapp_cons, contains_char, IH, orb_true_r.
Qed.

Lemma split1_app (ch : ascii) (l r : string) :
  contains (String ch EmptyString) l = false ->
  split1 ch (l +:+ String ch r) = [l; r].
Proof.
  induction l as [|c l IH]; intros H.
  - change (EmptyString +:+ String ch r) with (String ch r).
    cbn. by rewrite Ascii.eqb_refl.
  - rewrite contains_char in H. apply orb_false_iff in H as [Hc Hl].
    rewrite sapp_cons. cbn [split1]. rewrite Ascii.eqb_sym, Hc.
    by rewrite IH.
Qed.

Lemma contains_char_split (ch : ascii) (s : string) :
  contains (String ch EmptyString) s = true ->
  exists l r, s = l +:+ String ch r /\
              contains (String ch EmptyString) l = false.
Proof.
  induction s as [|c s IH]; [done|]. rewrite contains_char.
  destruct (Ascii.eqb ch c) eqn:E.
  - apply Ascii.eqb_eq in E as <-. intros _. by exists EmptyString, s.
  - intros (l & r & -> & Hl)%IH. exists (String c l), r.
    by rewrite contains_char, E, Hl.
Qed.

Lemma all_digits_dash (l r : string) :
  all_digits (l +:+ String "-" r) = false.
Proof.
  induction l as [|c l IH]; [done|].
  rewrite sapp_cons. cbn [all_digits]. by rewrite IH, andb_false_r.
Qed.

Lemma isdigit_dash (l r : string) : isdigit (l +:+ String "-" r) = false.
Proof.
  pose proof (all_digits_dash l r) as H.
  by destruct (l +:+ String "-" r).
Qed.

Lemma space_not_dash (c : ascii) :
  isspace c = true -> Ascii.eqb "-" c = false.
Proof. by destruct c as [[] [] [] [] [] [] [] []]. Qed.

Lemma contains_dash_lstrip (s : string) :
  contains "-" (lstrip s) = contains "-" s.
Proof.
  induction s as [|c r IH]; [done|]. cbn [lstrip].
  destruct (isspace c) eqn:Hc; [|done].
  by rewrite IH, contains_char, space_not_dash.
Qed.

Lemma contains_dash_all_space (s : string) :
  all_space s = true -> contains "-" s = false.
Proof.
  induction s as [|c r IH]; [done|]. cbn [all_space]. intros H.
  apply andb_true_iff in H as [Hc Hr].
  by rewrite contains_char, space_not_dash, IH.
Qed.

Lemma contains_dash_rstrip (s : string) :
  contains "-" (rstrip s) = contains "-" s.
Proof.
  induction s as [|c r IH]; [done|]. rewrite rstrip_cons.
  destruct (isspace c && all_space r) eqn:E.
  - apply andb_true_iff in E as [Hc Hr].
    by rewrite contains_char, space_not_dash, (contains_dash_all_space r).
  - by rewrite !contains_char, IH.
Qed.

Lemma contains_dash_strip (s : string) :
  contains "-" (strip s) = contains "-" s.
Proof.
  unfold strip. by rewrite contains_dash_rstrip, contains_dash_lstrip.
Qed.

End StrFacts.

(** ** Slicing *)

Section SliceFacts.
Import PyStr PySeq LoggerPlugin.
Context {A : Type}.
Implicit Types (logs : list A) (limit : string) (d : Z).

Lemma slice_tail_pos logs (n : Z) :
  0 < n -> slice logs (Some (- n)) None = last_n (Z.to_nat n) logs.
Proof.
  intros Hn. unfold slice, last_n, clip. cbn [from_option].
  assert ((- n <? 0) = true) as -> by lia.
  replace (Z.to_nat (Z.max (- n + Z.of_nat (length logs)) 0))
    with (length logs - Z.to_nat n)%nat by lia.
  apply take_ge. rewrite length_drop. lia.
Qed.

Lemma slice_tail_zero logs : slice logs (Some 0) None = logs.
Proof.
  unfold slice, clip. cbn [from_option].
  change (0 <? 0) with false. cbv iota.
  rewrite Z.min_l by lia. change (Z.to_nat 0) with 0%nat.
  rewrite drop_0, Z.sub_0_r, Nat2Z.id. by apply take_ge.
Qed.

Lemma slice_between logs (s e : Z) :
  0 <= s -> 0 <= e <= Z.of_nat (length logs) ->
  slice logs (Some s) (Some e) =
    take (Z.to_nat (e - s)) (drop (Z.to_nat s) logs).
Proof.
  intros Hs He. unfold slice, clip. cbn [from_option].
  assert ((s <? 0) = false) as -> by lia.
  assert ((e <? 0) = false) as -> by lia.
  rewrite (Z.min_l e) by lia.
  destruct (Z.le_gt_cases s (Z.of_nat (length logs))) as [H|H].
  - by rewrite Z.min_l by lia.
  - rewrite Z.min_r by lia.
    replace (Z.to_nat (e - Z.of_nat (length logs))) with 0%nat by lia.
    by replace (Z.to_nat (e - s)) with 0%nat by lia.
Qed.

Lemma last_n_all logs (n : nat) :
  (length logs <= n)%nat -> last_n n logs = logs.
Proof.
  intros H. unfold last_n.
  by replace (length logs - n)%nat with 0%nat by lia.
Qed.

(** The body of [_slice_logs] past the emptiness test. *)
Lemma slice_logs_nonempty logs limit d :
  truthy limit = true ->
  _slice_logs logs limit d =
    let limit := strip limit in
    if isdigit limit then
      n ← int limit; mret (slice logs (Some (- n)) None)
    else if contains "-" limit then
      '(left_, right_) ← unpack2 (split1 "-" limit);
      start ← (if isdigit left_ then n ← int left_; mret (n - 1)
               else mret 0);
      end_ ← (if isdigit right_ then int right_
              else mret (Z.of_nat (length logs)));
      mret (slice logs (Some (Z.max start 0))
              (Some (Z.min end_ (Z.of_nat (length logs)))))
    else mret (slice logs (Some (- d)) None).
Proof. intros H. unfold _slice_logs. by rewrite H. Qed.

Lemma slice_logs_empty logs d :
  _slice_logs logs EmptyString d = Ok (slice logs (Some (- d)) None).
Proof. done. Qed.

Lemma slice_logs_strip logs limit d :
  _slice_logs logs limit d = _slice_logs logs (strip limit) d.
Proof.
  destruct limit as [|c r]; [done|].
  rewrite slice_logs_nonempty by done. cbv zeta.
  destruct (strip (String c r)) as [|c' r'] eqn:E; [done|].
  rewrite slice_logs_nonempty by done. cbv zeta.
  by rewrite <- E, strip_idem.
Qed.

Lemma slice_logs_count logs limit d :
  isdigit limit = true ->
  _slice_logs logs limit d =
    n ← int limit; mret (slice logs (Some (- n)) None).
Proof.
  intros H.
  assert (strip limit = limit) as Hs.
  { apply strip_no_space, all_digits_no_space.
    by apply isdigit_all_digits. }
  rewrite slice_logs_nonempty by (by destruct limit). cbv zeta.
  by rewrite Hs, H.
Qed.

Lemma slice_logs_count_pos logs limit d (k : Z) :
  isdigit limit = true -> int limit = Ok k -> 0 < k ->
  _slice_logs logs limit d = Ok (last_n (Z.to_nat k) logs).
Proof.
  intros H Hk Hpos.
  by rewrite slice_logs_count, Hk, bind_Ok, <- slice_tail_pos.
Qed.

(** The range branch: both parts are read, the left one first. *)
Lemma slice_logs_range logs limit left_ right_ d :
  strip limit = left_ +:+ String "-" right_ ->
  contains "-" left_ = false ->
  _slice_logs logs limit d =
    start ← (if isdigit left_ then n ← int left_; mret (n - 1) else mret 0);
    end_ ← (if isdigit right_ then int right_
            else mret (Z.of_nat (length logs)));
    mret (slice logs (Some (Z.max start 0))
            (Some (Z.min end_ (Z.of_nat (length logs))))).
Proof.
  intros Hs Hl.
  assert (truthy limit = true) as Ht.
  { destruct limit; [|done]. by destruct left_. }
  rewrite slice_logs_nonempty by done. cbv zeta.
  rewrite Hs, isdigit_dash, contains_char_app, split1_app by done.
  cbn [unpack2]. by rewrite bind_Ok.
Qed.

(** The range branch when [int] reads every part that [isdigit]
    accepts. *)
Lemma slice_logs_range_read logs limit left_ right_ d (a b : Z) :
  strip limit = left_ +:+ String "-" right_ ->
  contains "-" left_ = false ->
  (isdigit left_ = true -> int left_ = Ok a) ->
  (isdigit right_ = true -> int right_ = Ok b) ->
  _slice_logs logs limit d =
    Ok (slice logs
          (Some (Z.max (if isdigit left_ then a - 1 else 0) 0))
          (Some (Z.min (if isdigit right_ then b
                        else Z.of_nat (length logs))
                   (Z.of_nat (length logs))))).
Proof.
  intros Hs Hl Ha Hb. rewrite (slice_logs_range logs limit left_ right_)
    by done.
  destruct (isdigit left_); destruct (isdigit right_);
    by rewrite ?Ha, ?Hb, ?bind_Ok by done.
Qed.

Lemma slice_logs_fallback logs limit d :
  isdigit (strip limit) = false -> contains "-" limit = false ->
  _slice_logs logs limit d = Ok (slice logs (Some (- d)) None).
Proof.
  intros H1 H2. destruct limit as [|c r]; [done|].
  rewrite slice_logs_nonempty by done. cbv zeta.
  by rewrite H1, contains_dash_strip, H2.
Qed.

End SliceFacts.

(** ** Formatting *)

Section FormatFacts.
Import PyStr LoggerPlugin.

Lemma after_params_skip (resume : string -> string) (keep p : string) :
  after_params resume keep p =
    match skip_params p with
    | String d r => if Ascii.eqb d "m" then resume r else keep
    | EmptyString => keep
    end.
Proof.
  induction p as [|d t IH]; [done|]. cbn.
  by destruct (is_param d).
Qed.

(** One step of the substitution: drop a match at the head, or keep the
    head character. *)
Lemma ansi_sub_cons (c : ascii) (r : string) :
  ansi_sub (String c r) =
    match ansi_match (String c r) with
    | Some r' => ansi_sub r'
    | None => String c (ansi_sub r)
    end.
Proof.
  destruct r as [|b p]; [done|].
  change (ansi_sub (String c (String b p))) with
    (if Ascii.eqb c ESC && Ascii.eqb b "[" then
       after_params ansi_sub (String c (ansi_sub (String b p))) p
     else String c (ansi_sub (String b p))).
  unfold ansi_match.
  destruct (Ascii.eqb c ESC && Ascii.eqb b "["); [|done].
  rewrite after_params_skip.
  destruct (skip_params p) as [|d q]; [done|].
  by destruct (Ascii.eqb d "m").
Qed.

Lemma skip_params_app (ps r : string) :
  all_params ps = true ->
  skip_params (ps +:+ String "m" r) = String "m" r.
Proof.
  induction ps as [|c ps IH]; [done|]. cbn [all_params]. intros H.
  apply andb_true_iff in H as [Hc Hps].
  rewrite sapp_cons. cbn [skip_params]. by rewrite Hc, IH.
Qed.

Lemma skip_params_split (p : string) :
  exists ps, all_params ps = true /\ p = ps +:+ skip_params p.
Proof.
  induction p as [|c p (ps & Hps & Hp)]; [by exists EmptyString|].
  cbn [skip_params]. destruct (is_param c) eqn:Hc.
  - exists (String c ps). cbn [all_params]. rewrite Hc, Hps.
    split; [done|]. by rewrite sapp_cons, <- Hp.
  - by exists EmptyString.
Qed.

(** [ansi_match] recognises exactly [ESC], a bracket, parameters, [m]. *)
Lemma ansi_match_Some (s r : string) :
  ansi_match s = Some r <->
  exists ps, all_params ps = true /\
             s = String ESC (String "[" (ps +:+ String "m" r)).
Proof.
  split.
  - destruct s as [|e [|b p]]; [done..|]. unfold ansi_match.
    destruct (Ascii.eqb e ESC) eqn:He; [|done].
    destruct (Ascii.eqb b "[") eqn:Hb; [|done]. cbn [andb].
    apply Ascii.eqb_eq in He as ->. apply Ascii.eqb_eq in Hb as ->.
    destruct (skip_params_split p) as (ps & Hps & Hp).
    destruct (skip_params p) as [|d q]; [done|].
    destruct (Ascii.eqb d "m") eqn:Hd; [|done].
    apply Ascii.eqb_eq in Hd as ->. intros [= ->].
    exists ps. split; [done|]. by rewrite <- Hp.
  - intros (ps & Hps & ->). unfold ansi_match.
    rewrite !Ascii.eqb_refl. cbn [andb].
    by rewrite skip_params_app.
Qed.

Lemma ansi_sub_no_match (s : string) :
  has_match s = false -> ansi_sub s = s.
Proof.
  induction s as [|c r IH]; [done|]. cbn [has_match]. intros H.
  apply orb_false_iff in H as [Hm Hr]. rewrite ansi_sub_cons.
  apply bool_decide_eq_false in Hm.
  destruct (ansi_match (String c r)); [by destruct Hm|].
  by rewrite IH.
Qed.

Lemma skip_params_app_esc (p s : string) :
  esc_headed s -> skip_params (p +:+ s) = skip_params p +:+ s.
Proof.
  intros Hs. induction p as [|c p IH].
  - change (EmptyString +:+ s) with s. by destruct Hs as [->|[r ->]].
  - rewrite sapp_cons. cbn [skip_params]. by destruct (is_param c).
Qed.

Lemma ansi_match_app_esc (c : ascii) (a s : string) :
  esc_headed s ->
  ansi_match (String c a +:+ s) =
    (fun r => r +:+ s) <$> ansi_match (String c a).
Proof.
  intros Hs. destruct a as [|b p].
  - change (String c EmptyString +:+ s) with (String c s).
    destruct Hs as [->|[r ->]]; [done|]. unfold ansi_match.
    by rewrite andb_false_r.
  - rewrite !sapp_cons. unfold ansi_match.
    destruct (Ascii.eqb c ESC && Ascii.eqb b "["); [|done].
    rewrite skip_params_app_esc by done.
    destruct (skip_params p) as [|d q].
    + change (EmptyString +:+ s) with s.
      by destruct Hs as [->|[r ->]].
    + rewrite sapp_cons. by destruct (Ascii.eqb d "m").
Qed.

Lemma ansi_match_shorter (s r : string) :
  ansi_match s = Some r -> (String.length r < String.length s)%nat.
Proof.
  intros (ps & _ & ->)%ansi_match_Some. cbn [String.length].
  rewrite slength_app. cbn [String.length]. lia.
Qed.

Lemma ansi_sub_app_esc (a s : string) :
  esc_headed s -> ansi_sub (a +:+ s) = ansi_sub a +:+ ansi_sub s.
Proof.
  intros Hs. remember (String.length a) as n eqn:Hn.
  revert a Hn. induction n as [n IH] using lt_wf_ind. intros a Hn.
  destruct a as [|c a]; [done|].
  rewrite sapp_cons, !ansi_sub_cons.
  assert (ansi_match (String c (a +:+ s)) =
          (fun r => r +:+ s) <$> ansi_match (String c a)) as ->
    by (by rewrite <- ansi_match_app_esc).
  destruct (ansi_match (String c a)) as [r|] eqn:E; cbn [fmap option_fmap option_map].
  - apply (IH (String.length r)); [|done].
    subst n. by apply ansi_match_shorter.
  - rewrite sapp_cons. f_equal. apply (IH (String.length a)); [|done].
    subst n. cbn. lia.
Qed.

(** Every complete sequence of the text is dropped, wherever it stands. *)
Lemma ansi_sub_removes (pre ps rest : string) :
  all_params ps = true ->
  ansi_sub (pre +:+ String ESC (String "[" (ps +:+ String "m" rest))) =
    ansi_sub pre +:+ ansi_sub rest.
Proof.
  intros Hps. rewrite ansi_sub_app_esc by (right; by eexists).
  f_equal. rewrite ansi_sub_cons.
  assert (ansi_match (String ESC (String "[" (ps +:+ String "m" rest))) =
          Some rest) as ->; [|done].
  apply ansi_match_Some. by exists ps.
Qed.

(** [rstrip] cuts a run of blanks off the end, and nothing else. *)
Lemma rstrip_split (s : string) :
  exists ws, all_space ws = true /\ s = rstrip s +:+ ws.
Proof.
  induction s as [|c r (ws & Hws & Hr)]; [by exists EmptyString|].
  rewrite rstrip_cons. destruct (isspace c && all_space r) eqn:E.
  - by exists (String c r).
  - exists ws. split; [done|]. by rewrite sapp_cons, <- Hr.
Qed.

Lemma rstrip_no_trailing (s t ws : string) :
  rstrip s = t +:+ ws -> all_space ws = true -> ws = EmptyString.
Proof.
  intros Hs Hws.
  assert (rstrip (t +:+ ws) = t +:+ ws) as H
    by (by rewrite <- Hs, rstrip_idem).
  rewrite rstrip_app_space in H by done.
  destruct (rstrip_split t) as (ws' & Hws' & Ht).
  assert (String.length (rstrip t +:+ EmptyString) =
          String.length (rstrip t +:+ ws' +:+ ws)) as Hlen.
  { by rewrite sapp_nil_r, <- sapp_assoc, <- Ht, H. }
  rewrite !slength_app in Hlen.
  destruct ws; [done|]. cbn in Hlen. lia.
Qed.

Lemma format_log_unfold (log : gmap string string) :
  _format_log log =
    let text := rstrip (ansi_sub (default EmptyString (log !! "data"))) in
    let level := upper (default "UNKNOWN" (log !! "level")) in
    if String.eqb level "ERROR" then
      "```" +:+ String LF (text +:+ String LF "```")
    else if String.eqb level "WARNING" then "**" +:+ text +:+ "**"
    else if String.eqb level "DEBUG" then text
    else "> " +:+ text.
Proof. done. Qed.

End FormatFacts.

(** ** Substrings, filters and levels *)

Section SearchFacts.
Import PyStr LoggerPlugin.

Lemma startswith_iff (p s : string) :
  startswith p s = true <-> exists post, s = p +:+ post.
Proof.
  revert s. induction p as [|a p IH]; intros s.
  - split; [|by destruct s]. intros _. by exists s.
  - destruct s as [|b s].
    + split; [done|]. by intros [post ?].
    + cbn [startswith]. rewrite andb_true_iff, Ascii.eqb_eq, IH. split.
      * intros [-> [post ->]]. by exists post.
      * intros [post H]. rewrite sapp_cons in H.
        injection H as -> ->. split; [done|]. by exists post.
Qed.

Lemma contains_cons (n : string) (c : ascii) (h : string) :
  contains n (String c h) = startswith n (String c h) || contains n h.
Proof. done. Qed.

Lemma contains_iff (n h : string) :
  contains n h = true <-> is_substring n h.
Proof.
  unfold is_substring. induction h as [|c h IH].
  - cbn [contains]. rewrite orb_false_r, startswith_iff. split.
    + intros [post H]. by exists EmptyString, post.
    + intros ([|? ?] & post & H); [by exists post|done].
  - rewrite contains_cons, orb_true_iff, startswith_iff, IH. split.
    + intros [[post H]|(pre & post & H)].
      * by exists EmptyString, post.
      * exists (String c pre), post. by rewrite sapp_cons, <- H.
    + intros ([|x pre] & post & H).
      * left. by exists post.
      * right. rewrite sapp_cons in H. injection H as -> ->.
        by exists pre, post.
Qed.

Lemma contains_nil (h : string) : contains EmptyString h = true.
Proof. by destruct h. Qed.

Lemma filter_sublist {B} (f : B -> bool) (l : list B) :
  List.filter f l `sublist_of` l.
Proof.
  induction l as [|x l IH]; [constructor|]. cbn.
  destruct (f x); by constructor.
Qed.

Lemma filter_elem_of {B} (f : B -> bool) (l : list B) (x : B) :
  x ∈ List.filter f l <-> x ∈ l /\ f x = true.
Proof. rewrite !list_elem_of_In. apply filter_In. Qed.

Lemma filter_all {B} (f : B -> bool) (l : list B) :
  (forall x, f x = true) -> List.filter f l = l.
Proof.
  intros H. induction l as [|x l IH]; [done|]. cbn. by rewrite H, IH.
Qed.

Lemma filter_ext_bool {B} (f g : B -> bool) (l : list B) :
  (forall x, f x = g x) -> List.filter f l = List.filter g l.
Proof.
  intros H. induction l as [|x l IH]; [done|]. cbn. by rewrite H, IH.
Qed.

Lemma filter_stdpp {B} (f : B -> bool) (P : B -> Prop)
    `{!forall x, Decision (P x)} (l : list B) :
  (forall x, f x = true <-> P x) -> List.filter f l = filter P l.
Proof.
  intros Hf. induction l as [|x l IH]; [done|]. cbn [List.filter].
  rewrite filter_cons, IH. destruct (decide (P x)) as [HP|HP].
  - apply Hf in HP. by rewrite HP.
  - destruct (f x) eqn:E; [|done]. by apply Hf in E.
Qed.

Lemma level_is_iff (name : string) (log : gmap string string) :
  level_is name log = true <-> log !! "level" = Some name.
Proof.
  unfold level_is. destruct (log !! "level") as [v|]; [|done].
  rewrite String.eqb_eq. split; congruence.
Qed.

Lemma isspace_upper_char (c : ascii) : isspace (upper_char c) = isspace c.
Proof. by destruct c as [[] [] [] [] [] [] [] []]. Qed.

Lemma has_space_upper (s : string) : has_space (upper s) = has_space s.
Proof.
  induction s as [|c r IH]; [done|]. cbn.
  by rewrite isspace_upper_char, <- IH.
Qed.

Lemma from_input_nonempty (s : string) :
  s <> EmptyString ->
  LogLevel.from_input (Some s) =
    List.find (fun item => String.eqb (LogLevel.value item) (upper s))
      LogLevel.members.
Proof. by destruct s. Qed.

Lemma find_level_value (l : LogLevel.t) :
  List.find (fun item => String.eqb (LogLevel.value item) (LogLevel.value l))
    LogLevel.members = Some l.
Proof. by destruct l. Qed.

End SearchFacts.

(** ** The selection claims *)

Section SliceClaims.
Import PyStr PySeq LoggerPlugin.

(** C1 (the count zero).  For the spec ["0"] the code evaluates
    [logs[-0:]], which is [logs[0:]]: the whole list comes back, not the
    last zero records. *)
Theorem slice_count_zero_returns_all {A} (logs : list A) (d : Z) :
  _slice_logs logs "0" d = Ok logs.
Proof.
  rewrite slice_logs_count by done.
  change (int "0") with (@Ok Z 0). rewrite bind_Ok.
  change (- 0) with 0. by rewrite slice_tail_zero.
Qed.

(** C2 (a part that [int] cannot read).  The range branch calls [int]
    on every part that passes [isdigit], and [isdigit] does not promise
    that [int] reads the part.  A left part of 4301 digits passes the
    test and is beyond the interpreter's limit: the call ends in
    [ValueError] where the claim promises [logs[start:end]]. *)
Theorem slice_range_unreadable_part {A} (logs : list A) (d : Z) :
  isdigit (repeat "1" 4301) = true /\
  _slice_logs logs (repeat "1" 4301 +:+ "-3") d = Raise ValueError.
Proof. split; by vm_compute. Qed.

(** C3, as the specification states it, fails: a spec with two dashes is
    malformed in the specification's sense, yet the code reads it as a
    range and returns all three records instead of the last one. *)
Lemma slice_malformed_fallback_fails :
  ¬ (forall (logs : list Z) (spec : string) (d : Z),
       0 < d -> Spec.malformed spec = true ->
       _slice_logs logs spec d = Ok (last_n (Z.to_nat d) logs)).
Proof.
  intros H. specialize (H [1; 2; 3] "1-2-3" 1).
  vm_compute in H. by specialize (H eq_refl eq_refl).
Qed.

(** C3, amended.  With a positive default limit, the empty spec, and
    every spec that after trimming is not a digit string and that holds
    no [-], give the last [default_limit] records: the whole list when
    [default_limit >= total]. *)
Theorem slice_default_fallback {A} (logs : list A) (limit : string)
    (d : Z) :
  0 < d ->
  limit = EmptyString \/
    (isdigit (strip limit) = false /\ contains "-" limit = false) ->
  _slice_logs logs limit d = Ok (last_n (Z.to_nat d) logs) /\
  (Z.of_nat (length logs) <= d -> _slice_logs logs limit d = Ok logs).
Proof.
  intros Hd Hcase.
  assert (_slice_logs logs limit d = Ok (last_n (Z.to_nat d) logs)) as H.
  { rewrite <- slice_tail_pos by done.
    destruct Hcase as [->|[H1 H2]]; [done|].
    by apply slice_logs_fallback. }
  split; [done|]. intros Hall. rewrite H, last_n_all; [done|lia].
Qed.

Lemma slice_default_fallback_witness :
  _slice_logs [0; 1; 2; 3; 4] "abc" 2 = Ok [3; 4].
Proof.
  refine (proj1 (slice_default_fallback [0; 1; 2; 3; 4] "abc" 2 _ _)).
  - reflexivity.
  - right. split; reflexivity.
Defined.

(** C10.  A non-empty spec is read after trimming.  A count padded
    with blanks behaves like the count: when [int] reads it as
    [k >= 1] the result is the last [k] records, so [" 5 "] gives the
    last five.  A spec of blanks only behaves like the empty spec: the
    result is [logs[-default_limit:]], the last [default_limit] records
    for a positive default limit. *)
Theorem slice_trims_spec {A} (logs : list A) (d : Z) :
  (forall limit : string,
     _slice_logs logs limit d = _slice_logs logs (strip limit) d) /\
  (forall ws1 n ws2 : string,
     all_space ws1 = true -> all_space ws2 = true -> isdigit n = true ->
     _slice_logs logs (ws1 +:+ n +:+ ws2) d = _slice_logs logs n d) /\
  (forall (ws1 n ws2 : string) (k : Z),
     all_space ws1 = true -> all_space ws2 = true -> isdigit n = true ->
     int n = Ok k -> 0 < k ->
     _slice_logs logs (ws1 +:+ n +:+ ws2) d =
       Ok (last_n (Z.to_nat k) logs)) /\
  _slice_logs logs " 5 " d = Ok (last_n 5 logs) /\
  (forall ws : string,
     all_space ws = true ->
     _slice_logs logs ws d = _slice_logs logs EmptyString d /\
     _slice_logs logs ws d = Ok (slice logs (Some (- d)) None) /\
     (0 < d -> _slice_logs logs ws d = Ok (last_n (Z.to_nat d) logs))).
Proof.
  assert (forall ws1 n ws2 : string,
            all_space ws1 = true -> all_space ws2 = true ->
            isdigit n = true ->
            _slice_logs logs (ws1 +:+ n +:+ ws2) d = _slice_logs logs n d)
    as Hpad.
  { intros ws1 n ws2 H1 H2 Hn. rewrite slice_logs_strip.
    rewrite strip_padded; [done..|].
    by apply all_digits_no_space, isdigit_all_digits. }
  split; [intros; apply slice_logs_strip|]. split; [done|].
  split; [|split].
  - intros ws1 n ws2 k H1 H2 Hn Hk Hpos. rewrite Hpad by done.
    by apply slice_logs_count_pos.
  - rewrite slice_logs_strip. change (strip " 5 ") with "5".
    by rewrite (slice_logs_count_pos logs "5" d 5).
  - intros ws Hws.
    assert (_slice_logs logs ws d = _slice_logs logs EmptyString d) as H.
    { rewrite slice_logs_strip.
      assert (strip ws = EmptyString) as ->; [|done].
      unfold strip. by rewrite lstrip_all_space. }
    split; [done|]. rewrite H, slice_logs_empty. split; [done|].
    intros Hd. by rewrite slice_tail_pos.
Qed.

Lemma slice_trims_spec_witness :
  _slice_logs [0; 1; 2; 3; 4] "  2 " 9 = Ok [3; 4].
Proof.
  exact (proj1 (proj2 (proj2 (slice_trims_spec [0; 1; 2; 3; 4] 9)))
           "  " "2" " " 2 eq_refl eq_refl eq_refl eq_refl eq_refl).
Defined.

End SliceClaims.

(** ** The formatting claims *)

Section FormatClaims.
Import PyStr LoggerPlugin.

(** C4.  [_format_log] cleans the record's data ([ansi_sub], then
    [rstrip]) and styles it by the upper-cased level: a fenced block for
    ERROR, bold for WARNING, the bare text for DEBUG, a block quote for
    everything else.  Every complete escape sequence of the data is
    dropped, wherever it stands; the two examples of the specification
    evaluate as stated. *)
Theorem format_log_by_level (log : gmap string string) :
  let text := rstrip (ansi_sub (default EmptyString (log !! "data"))) in
  let level := upper (default "UNKNOWN" (log !! "level")) in
  (level = "ERROR" ->
     _format_log log = "```" +:+ String LF (text +:+ String LF "```")) /\
  (level = "WARNING" -> _format_log log = "**" +:+ text +:+ "**") /\
  (level = "DEBUG" -> _format_log log = text) /\
  (level <> "ERROR" -> level <> "WARNING" -> level <> "DEBUG" ->
     _format_log log = "> " +:+ text) /\
  (forall pre ps rest : string,
     all_params ps = true ->
     ansi_sub (pre +:+ String ESC (String "[" (ps +:+ String "m" rest))) =
       ansi_sub pre +:+ ansi_sub rest) /\
  _format_log
    (<["level":="ERROR"]>
       (<["data":=String ESC ("[31mboom" +:+ String ESC "[0m")]> ∅)) =
    "```" +:+ String LF ("boom" +:+ String LF "```") /\
  _format_log (<["level":="WARNING"]> (<["data":="careful "]> ∅)) =
    "**careful**".
Proof.
  intros text level. rewrite format_log_unfold. cbv zeta.
  fold text level.
  split; [by intros ->|]. split; [by intros ->|].
  split; [by intros ->|]. split.
  - intros H1 H2 H3.
    apply String.eqb_neq in H1 as ->. apply String.eqb_neq in H2 as ->.
    by apply String.eqb_neq in H3 as ->.
  - split; [apply ansi_sub_removes|]. split; by vm_compute.
Qed.

Lemma format_log_by_level_witness :
  _format_log (<["level":="warning"]> (<["data":="disk low  "]> ∅)) =
    "**disk low**".
Proof.
  refine (proj1 (proj2 (format_log_by_level
    (<["level":="warning"]> (<["data":="disk low  "]> ∅)))) _).
  by vm_compute.
Defined.

(** C9.  [_format_log] is a total function of the record.  A record
    without [data] is formatted like one with empty data; a record
    without [level] is formatted like one of level UNKNOWN, as a block
    quote; text in which no escape sequence is complete, the empty text
    included, passes through the substitution unchanged. *)
Theorem format_log_total (log : gmap string string) :
  (exists out : string, _format_log log = out) /\
  (log !! "data" = None ->
     _format_log log = _format_log (<["data":=EmptyString]> log)) /\
  (log !! "level" = None ->
     _format_log log = _format_log (<["level":="UNKNOWN"]> log) /\
     _format_log log =
       "> " +:+ rstrip (ansi_sub (default EmptyString (log !! "data")))) /\
  (forall s : string, has_match s = false -> ansi_sub s = s) /\
  ansi_sub (String ESC "[31") = String ESC "[31" /\
  _format_log ∅ = "> ".
Proof.
  split; [by eexists|]. split; [|split].
  - intros H. rewrite !format_log_unfold. cbv zeta.
    rewrite lookup_insert_eq, lookup_insert_ne, H by done. done.
  - intros H. rewrite !format_log_unfold. cbv zeta.
    rewrite lookup_insert_eq, lookup_insert_ne, H by done. done.
  - split; [apply ansi_sub_no_match|]. split; by vm_compute.
Qed.

Lemma format_log_total_witness :
  _format_log (<["level":="INFO"]> ∅) =
    _format_log (<["data":=EmptyString]> (<["level":="INFO"]> ∅)).
Proof.
  refine (proj1 (proj2 (format_log_total (<["level":="INFO"]> ∅))) _).
  by vm_compute.
Defined.

End FormatClaims.

(** ** The filter, search and classifier claims *)

Section FilterClaims.
Import PyStr LoggerPlugin.

(** C5.  For a concrete level the filter returns the records whose
    [level] value equals the level's name verbatim, in their order; a
    record without [level], or with another value (another case
    included), is left out. *)
Theorem filter_by_concrete_level (logs : list (gmap string string))
    (level : LogLevel.t) :
  level <> LogLevel.ALL ->
  let name := LogLevel.value level in
  let out := _filter_logs_by_level logs level in
  out = filter (fun log : gmap string string => log !! "level" = Some name)
          logs /\
  out `sublist_of` logs /\
  (forall log, log ∈ out <-> log ∈ logs /\ log !! "level" = Some name) /\
  (forall log, log !! "level" = None -> log ∉ out) /\
  (forall log v, log !! "level" = Some v -> v <> name -> log ∉ out).
Proof.
  intros Hl name out.
  assert (out = List.filter (level_is name) logs) as ->.
  { subst out name. unfold _filter_logs_by_level. by destruct level. }
  assert (forall log, log ∈ List.filter (level_is name) logs <->
                      log ∈ logs /\ log !! "level" = Some name) as Hin.
  { intros log. by rewrite filter_elem_of, level_is_iff. }
  split; [apply filter_stdpp, level_is_iff|].
  split; [apply filter_sublist|]. split; [done|]. split.
  - intros log H [_ H']%Hin. congruence.
  - intros log v H Hv [_ H']%Hin. congruence.
Qed.

Lemma filter_by_concrete_level_witness :
  _filter_logs_by_level
    [<["level":="ERROR"]> ∅; <["level":="error"]> ∅; ∅]
    LogLevel.ERROR `sublist_of`
    [<["level":="ERROR"]> ∅; <["level":="error"]> ∅; ∅].
Proof.
  refine (proj1 (proj2 (filter_by_concrete_level
    [<["level":="ERROR"]> ∅; <["level":="error"]> ∅; ∅]
    LogLevel.ERROR _))).
  discriminate.
Defined.

(** C6.  With the level ALL the filter returns its input unchanged. *)
Theorem filter_all_identity (logs : list (gmap string string)) :
  _filter_logs_by_level logs LogLevel.ALL = logs.
Proof. done. Qed.

(** C7.  The search keeps, in order and with repetitions, the records
    whose raw [data], lower-cased, holds the lower-cased keyword as a
    substring; with the empty keyword it keeps them all.  The match is on
    the raw text: a keyword found only inside an escape sequence still
    selects the record. *)
Theorem search_matches (logs : list (gmap string string))
    (keyword : string) :
  let hit (log : gmap string string) :=
    is_substring (lower keyword)
      (lower (default EmptyString (log !! "data"))) in
  matched logs keyword `sublist_of` logs /\
  (forall log, log ∈ matched logs keyword <-> log ∈ logs /\ hit log) /\
  (forall f : gmap string string -> bool,
     (forall log, f log = true <-> hit log) ->
     matched logs keyword = List.filter f logs) /\
  matched logs EmptyString = logs /\
  matched [<["data":=String ESC "[31mboom"]> ∅] "[31M" =
    [<["data":=String ESC "[31mboom"]> ∅].
Proof.
  intros hit. split; [|split; [|split; [|split]]].
  - apply filter_sublist.
  - intros log. unfold matched. by rewrite filter_elem_of, contains_iff.
  - intros f Hf. apply filter_ext_bool. intros log.
    apply eq_true_iff_eq. by rewrite contains_iff, Hf.
  - apply filter_all. intros log. apply contains_nil.
  - by vm_compute.
Qed.

Lemma search_matches_witness :
  matched [<["data":="Task FAILED"]> ∅; <["data":="ok"]> ∅] "fail" =
    List.filter
      (fun log => contains "fail"
                    (lower (default EmptyString (log !! "data"))))
      [<["data":="Task FAILED"]> ∅; <["data":="ok"]> ∅].
Proof.
  refine (proj1 (proj2 (proj2 (search_matches
    [<["data":="Task FAILED"]> ∅; <["data":="ok"]> ∅] "fail"))) _ _).
  intros log. apply contains_iff.
Defined.

(** C8.  [from_input] maps a missing or empty input to ALL; any other
    input is upper-cased and must equal one of the five names, whose
    level it then returns; everything else, an input holding a blank
    included, gives [None], which is no level. *)
Theorem from_input_classifies :
  LogLevel.from_input None = Some LogLevel.ALL /\
  LogLevel.from_input (Some EmptyString) = Some LogLevel.ALL /\
  (forall (s : string) (l : LogLevel.t),
     s <> EmptyString ->
     (LogLevel.from_input (Some s) = Some l <->
      upper s = LogLevel.value l)) /\
  (forall s : string,
     s <> EmptyString ->
     (LogLevel.from_input (Some s) = None <->
      forall l, upper s <> LogLevel.value l)) /\
  (forall s : string,
     has_space s = true -> LogLevel.from_input (Some s) = None) /\
  (forall l : LogLevel.t, (None : option LogLevel.t) <> Some l).
Proof.
  assert (forall (s : string) (l : LogLevel.t),
            s <> EmptyString ->
            (LogLevel.from_input (Some s) = Some l <->
             upper s = LogLevel.value l)) as Hsome.
  { intros s l Hs. rewrite from_input_nonempty by done. split.
    - intros [_ H]%find_some. by apply String.eqb_eq in H.
    - intros ->. apply find_level_value. }
  assert (forall s : string,
            s <> EmptyString ->
            (LogLevel.from_input (Some s) = None <->
             forall l, upper s <> LogLevel.value l)) as Hnone.
  { intros s Hs. split.
    - intros H l Hl. apply Hsome in Hl; [congruence|done].
    - intros H. destruct (LogLevel.from_input (Some s)) as [l|] eqn:E;
        [|done].
      apply Hsome in E; [|done]. by destruct (H l). }
  split; [done|]. split; [done|]. split; [done|]. split; [done|].
  split; [|done].
  intros s Hs. apply Hnone; [by destruct s|]. intros l Hl.
  rewrite <- has_space_upper, Hl in Hs. by destruct l.
Qed.

Lemma from_input_classifies_witness :
  LogLevel.from_input (Some "Warning") = Some LogLevel.WARNING.
Proof.
  refine (proj2 (proj1 (proj2 (proj2 from_input_classifies))
                   "Warning" LogLevel.WARNING _) _).
  - discriminate.
  - reflexivity.
Defined.

End FilterClaims.

(** ** Further properties of the selector *)

Section SliceExtras.
Import PyStr PySeq LoggerPlugin.
Implicit Types (limit : string) (d : Z).

Lemma slice_infix {A} (logs : list A) (s e : option Z) :
  exists pre post, logs = pre ++ slice logs s e ++ post.
Proof.
  unfold slice.
  set (len := Z.of_nat (length logs)).
  set (k := Z.to_nat (from_option (clip len) 0 s)).
  set (n := Z.to_nat (from_option (clip len) len e - from_option (clip len) 0 s)).
  exists (take k logs), (drop n (drop k logs)).
  by rewrite !take_drop.
Qed.

Lemma slice_logs_is_slice {A} (logs : list A) limit d (out : list A) :
  _slice_logs logs limit d = Ok out -> exists s e, out = slice logs s e.
Proof.
  destruct limit as [|c r] eqn:El; [intros [= <-]; by eexists _, _|].
  rewrite <- El. destruct (isdigit (strip limit)) eqn:Hd.
  - rewrite slice_logs_strip, slice_logs_count by done.
    destruct (int (strip limit)) as [n|]; [|done].
    intros [= <-]. by eexists _, _.
  - destruct (contains "-" limit) eqn:Hc.
    + rewrite <- contains_dash_strip in Hc.
      apply contains_char_split in Hc as (l & r' & Hs & Hl).
      rewrite (slice_logs_range logs limit l r' d Hs Hl).
      destruct (if isdigit l then _ else _) as [a|]; [|done].
      rewrite bind_Ok.
      destruct (if isdigit r' then _ else _) as [b|]; [|done].
      intros [= <-]. by eexists _, _.
    + rewrite slice_logs_fallback by done. intros [= <-]. by eexists _, _.
Qed.

Lemma slice_from {A} (logs : list A) (k : Z) :
  0 <= k -> slice logs (Some k) None = drop (Z.to_nat k) logs.
Proof.
  intros Hk. unfold slice, clip. cbn [from_option].
  assert ((k <? 0) = false) as -> by lia.
  destruct (Z.le_gt_cases k (Z.of_nat (length logs))) as [H|H].
  - rewrite Z.min_l by lia. apply take_ge. rewrite length_drop. lia.
  - rewrite Z.min_r, Z.sub_diag, Nat2Z.id by lia.
    by rewrite !drop_ge by lia.
Qed.

(** X1.  Whatever [_slice_logs] returns is one contiguous run of the
    input: the order is kept, no record is repeated, the result is no
    longer than the input, and from an empty list it is empty. *)
Theorem slice_logs_returns_segment {A} (logs : list A) limit d
    (out : list A) :
  _slice_logs logs limit d = Ok out ->
  (exists pre post, logs = pre ++ out ++ post) /\
  (length out <= length logs)%nat /\
  (logs = [] -> out = []).
Proof.
  intros (s & e & ->)%slice_logs_is_slice.
  destruct (slice_infix logs s e) as (pre & post & Hl).
  split; [by exists pre, post|]. split.
  - rewrite Hl at 2. rewrite !length_app. lia.
  - intros Hnil. rewrite Hnil in Hl. symmetry in Hl.
    apply app_eq_nil in Hl as [_ Hl]. apply app_eq_nil in Hl as [Hl _].
    by rewrite Hnil in *.
Qed.

Lemma slice_logs_returns_segment_witness :
  exists pre post, [10; 11; 12; 13; 14] = pre ++ [11; 12] ++ post.
Proof.
  exact (proj1 (slice_logs_returns_segment [10; 11; 12; 13; 14] "2-3" 9
                  [11; 12] eq_refl)).
Defined.

(** X2.  A spec that passes [isdigit] and that [int] reads as
    [k >= 1] (leading zeros allowed) selects the last [k] records:
    [min(k, total)] of them. *)
Theorem slice_count_positive {A} (logs : list A) limit d (k : Z) :
  isdigit limit = true -> int limit = Ok k -> 0 < k ->
  _slice_logs logs limit d = Ok (last_n (Z.to_nat k) logs) /\
  length (last_n (Z.to_nat k) logs) = Nat.min (Z.to_nat k) (length logs).
Proof.
  intros Hd Hk Hpos. split; [by apply slice_logs_count_pos|].
  unfold last_n. rewrite length_drop. lia.
Qed.

Lemma slice_count_positive_witness :
  _slice_logs [10; 11; 12; 13; 14] "03" 9 = Ok [12; 13; 14].
Proof.
  refine (proj1 (slice_count_positive [10; 11; 12; 13; 14] "03" 9 3 _ _ _));
    reflexivity.
Defined.

(** X3.  With a default limit that is zero or negative the fallback does
    not give "the last records": [logs[-d:]] then cuts from the front,
    so 0 returns the whole list and [-k] drops the first [k] records. *)
Theorem slice_fallback_nonpositive_default {A} (logs : list A) limit d :
  d <= 0 ->
  limit = EmptyString \/
    (isdigit (strip limit) = false /\ contains "-" limit = false) ->
  _slice_logs logs limit d = Ok (drop (Z.to_nat (- d)) logs) /\
  (d = 0 -> _slice_logs logs limit d = Ok logs).
Proof.
  intros Hd Hcase.
  assert (_slice_logs logs limit d = Ok (drop (Z.to_nat (- d)) logs)) as H.
  { rewrite <- slice_from by lia.
    destruct Hcase as [->|[H1 H2]]; [done|]. by apply slice_logs_fallback. }
  split; [done|]. intros ->. by rewrite H.
Qed.

Lemma slice_fallback_nonpositive_default_witness :
  _slice_logs [10; 11; 12; 13; 14] "all" (-2) = Ok [12; 13; 14].
Proof.
  refine (proj1 (slice_fallback_nonpositive_default
                   [10; 11; 12; 13; 14] "all" (-2) _ _)).
  - discriminate.
  - right. split; reflexivity.
Defined.

(** X4.  A range whose right part does not pass [isdigit] is open to
    the end: when the left part does not pass it either the whole list
    comes back, so a bare dash returns everything; when [int] reads the
    left part as [k] the first [k - 1] records are dropped. *)
Theorem slice_open_range {A} (logs : list A) limit (left_ right_ : string)
    d :
  strip limit = left_ +:+ String "-" right_ ->
  contains "-" left_ = false ->
  isdigit right_ = false ->
  (isdigit left_ = false -> _slice_logs logs limit d = Ok logs) /\
  (forall k : Z,
     isdigit left_ = true -> int left_ = Ok k ->
     _slice_logs logs limit d = Ok (drop (Z.to_nat (k - 1)) logs)).
Proof.
  intros Hs Hl Hr.
  assert (forall a : Z,
            (isdigit left_ = true -> int left_ = Ok a) ->
            _slice_logs logs limit d =
              Ok (drop (Z.to_nat (if isdigit left_ then a - 1 else 0))
                    logs)) as H.
  { intros a Ha.
    rewrite (slice_logs_range_read logs limit left_ right_ d a 0 Hs Hl Ha)
      by (by rewrite Hr).
    rewrite Hr, Z.min_id, slice_between by lia.
    f_equal. rewrite Z2Nat.inj_max. change (Z.to_nat 0) with 0%nat.
    rewrite Nat.max_0_r. apply take_ge. rewrite length_drop. lia. }
  split.
  - intros Hn. rewrite (H 0) by (by rewrite Hn). by rewrite Hn.
  - intros k Hd Hk. rewrite (H k) by done. by rewrite Hd.
Qed.

Lemma slice_open_range_witness :
  _slice_logs [10; 11; 12; 13; 14] "3-" 9 = Ok [12; 13; 14].
Proof.
  refine (proj2 (slice_open_range [10; 11; 12; 13; 14] "3-" "3"
                   EmptyString 9 _ _ _) 3 _ _); reflexivity.
Defined.

Lemma strip_dash_head (r : string) :
  strip (String "-" r) = String "-" (rstrip r).
Proof.
  unfold strip. change (lstrip (String "-" r)) with (String "-" r).
  by rewrite rstrip_cons.
Qed.

Lemma strip_digit_dash_head (c : ascii) (r : string) :
  is_digit c = true ->
  strip (String c (String "-" r)) = String c (String "-" (rstrip r)).
Proof.
  intros Hc. destruct (digit_char c Hc) as (_ & Hsp & _).
  unfold strip.
  assert (lstrip (String c (String "-" r)) = String c (String "-" r)) as ->
    by (cbn [lstrip]; by rewrite Hsp).
  rewrite rstrip_cons, Hsp. cbn [andb]. by rewrite rstrip_cons.
Qed.

(** X5.  The start of a range is one-based but 0 is accepted like 1, and
    like no start at all: the specs [0-r], [1-r] and [-r] select the same
    records for every [r]. *)
Theorem slice_range_start_zero_one {A} (logs : list A) (r : string) d :
  _slice_logs logs (String "0" (String "-" r)) d =
    _slice_logs logs (String "1" (String "-" r)) d /\
  _slice_logs logs (String "-" r) d =
    _slice_logs logs (String "1" (String "-" r)) d.
Proof.
  rewrite (slice_logs_range logs (String "0" (String "-" r)) "0" (rstrip r) d)
    by (by rewrite ?strip_digit_dash_head).
  rewrite (slice_logs_range logs (String "1" (String "-" r)) "1" (rstrip r) d)
    by (by rewrite ?strip_digit_dash_head).
  rewrite (slice_logs_range logs (String "-" r) EmptyString (rstrip r) d)
    by (by rewrite ?strip_dash_head).
  done.
Qed.

(** X23.  A spec that reads, once trimmed, as [left-right] cut at its
    first [-] selects [logs[start:end]] whenever [int] reads each part
    that passes [isdigit]: [start] is [int(left) - 1], at least 0, and 0
    for a left part that does not pass; [end] is [int(right)], at most
    [total], and [total] for a right part that does not pass.  The
    result is empty when [start >= end]. *)
Theorem slice_range_when_read {A} (logs : list A) limit
    (left_ right_ : string) d (a b : Z) :
  strip limit = left_ +:+ String "-" right_ ->
  contains "-" left_ = false ->
  (isdigit left_ = true -> int left_ = Ok a) ->
  (isdigit right_ = true -> int right_ = Ok b) ->
  let total := Z.of_nat (length logs) in
  let start := Z.max (if isdigit left_ then a - 1 else 0) 0 in
  let end_ := Z.min (if isdigit right_ then b else total) total in
  split1 "-" (strip limit) = [left_; right_] /\
  _slice_logs logs limit d = Ok (slice logs (Some start) (Some end_)) /\
  _slice_logs logs limit d =
    Ok (take (Z.to_nat (end_ - start)) (drop (Z.to_nat start) logs)) /\
  (end_ <= start -> _slice_logs logs limit d = Ok []).
Proof.
  intros Hs Hl Ha Hb total start end_.
  assert (0 <= start) as Hstart by (subst start; lia).
  assert (0 <= end_ <= total) as Hend.
  { subst end_ total. destruct (isdigit right_) eqn:E; [|lia].
    pose proof (int_isdigit_Ok right_ b E (Hb eq_refl)) as ->.
    pose proof (decimal_nonneg right_ E). lia. }
  assert (_slice_logs logs limit d =
            Ok (take (Z.to_nat (end_ - start))
                  (drop (Z.to_nat start) logs))) as Hcut.
  { rewrite (slice_logs_range_read logs limit left_ right_ d a b) by done.
    by rewrite slice_between. }
  split; [by rewrite Hs, split1_app|].
  split; [by apply slice_logs_range_read|]. split; [done|].
  intros Hle. rewrite Hcut.
  by replace (Z.to_nat (end_ - start)) with 0%nat by lia.
Qed.

Lemma slice_range_when_read_witness :
  _slice_logs [0; 1; 2; 3; 4; 5; 6; 7; 8; 9] "2-5" 3 = Ok [1; 2; 3; 4].
Proof.
  refine (proj1 (proj2 (proj2 (slice_range_when_read
            [0; 1; 2; 3; 4; 5; 6; 7; 8; 9] "2-5" "2" "5" 3 2 5
            _ _ _ _)))); reflexivity.
Defined.

(** X24.  A spec that starts with the dash, [-N], selects the first
    [N] records, not the last: [N] is read as the end of a range that
    starts at the beginning. *)
Theorem slice_leading_dash_first {A} (logs : list A) (n : string) d
    (k : Z) :
  isdigit n = true -> int n = Ok k ->
  _slice_logs logs (String "-" n) d = Ok (take (Z.to_nat k) logs).
Proof.
  intros Hn Hk.
  assert (strip (String "-" n) = EmptyString +:+ String "-" n) as Hsn.
  { apply strip_no_space. change (has_space n = false).
    by apply all_digits_no_space, isdigit_all_digits. }
  rewrite (slice_logs_range_read logs _ EmptyString n d 0 k Hsn) by done.
  rewrite Hn. cbn [isdigit].
  pose proof (int_isdigit_Ok n k Hn Hk) as Hd.
  pose proof (decimal_nonneg n Hn).
  rewrite slice_between by lia.
  rewrite Z.max_id, drop_0, Z.sub_0_r.
  destruct (Z.le_gt_cases k (Z.of_nat (length logs))).
  - by rewrite Z.min_l by lia.
  - rewrite Z.min_r, Nat2Z.id by lia.
    rewrite !take_ge; [done|lia|lia].
Qed.

Lemma slice_leading_dash_first_witness :
  _slice_logs [10; 11; 12; 13; 14] "-3" 9 = Ok [10; 11; 12].
Proof.
  exact (slice_leading_dash_first [10; 11; 12; 13; 14] "3" 9 3
           eq_refl eq_refl).
Defined.

End SliceExtras.

(** ** Further properties of the classifier, the filter and the search *)

Section CaseFacts.
Import PyStr.

Lemma upper_char_idem (c : ascii) :
  upper_char (upper_char c) = upper_char c /\
  upper_char (lower_char c) = upper_char c /\
  lower_char (upper_char c) = lower_char c /\
  lower_char (lower_char c) = lower_char c.
Proof. by destruct c as [[] [] [] [] [] [] [] []]. Qed.

Lemma map_chars_compose (f g h : ascii -> ascii) (s : string) :
  (forall c, f (g c) = h c) -> map_chars f (map_chars g s) = map_chars h s.
Proof.
  intros H. induction s as [|c r IH]; [done|]. cbn. by rewrite H, IH.
Qed.

Lemma upper_upper (s : string) : upper (upper s) = upper s.
Proof. apply map_chars_compose. intros c. apply upper_char_idem. Qed.

Lemma upper_lower (s : string) : upper (lower s) = upper s.
Proof. apply map_chars_compose. intros c. apply upper_char_idem. Qed.

Lemma lower_upper (s : string) : lower (upper s) = lower s.
Proof. apply map_chars_compose. intros c. apply upper_char_idem. Qed.

Lemma lower_lower (s : string) : lower (lower s) = lower s.
Proof. apply map_chars_compose. intros c. apply upper_char_idem. Qed.

Lemma lower_app (a b : string) : lower (a +:+ b) = lower a +:+ lower b.
Proof.
  induction a as [|c a IH]; [done|]. rewrite sapp_cons.
  change (lower (String c (a +:+ b))) with
    (String (lower_char c) (lower (a +:+ b))).
  by rewrite IH.
Qed.

Lemma is_substring_lower (n h : string) :
  is_substring n h -> is_substring (lower n) (lower h).
Proof.
  intros (pre & post & ->). exists (lower pre), (lower post).
  by rewrite !lower_app.
Qed.

Lemma is_substring_trans (a b c : string) :
  is_substring a b -> is_substring b c -> is_substring a c.
Proof.
  intros (p1 & q1 & ->) (p2 & q2 & ->).
  exists (p2 +:+ p1), (q1 +:+ q2). by rewrite !sapp_assoc.
Qed.

Lemma from_input_of_upper (s : string) :
  LogLevel.from_input (Some s) =
    if truthy s
    then List.find (fun item => String.eqb (LogLevel.value item) (upper s))
           LogLevel.members
    else Some LogLevel.ALL.
Proof. by destruct s. Qed.

Lemma truthy_map_chars (f : ascii -> ascii) (s : string) :
  truthy (map_chars f s) = truthy s.
Proof. by destruct s. Qed.

Lemma filter_filter_comm {B} (f g : B -> bool) (l : list B) :
  List.filter f (List.filter g l) = List.filter g (List.filter f l).
Proof.
  induction l as [|x l IH]; [done|]. cbn.
  destruct (g x) eqn:Eg; destruct (f x) eqn:Ef; cbn;
    by rewrite ?Eg, ?Ef, IH.
Qed.

Lemma filter_filter_implied {B} (f g : B -> bool) (l : list B) :
  (forall x, f x = true -> g x = true) ->
  List.filter f (List.filter g l) = List.filter f l.
Proof.
  intros H. induction l as [|x l IH]; [done|]. cbn.
  destruct (f x) eqn:Ef.
  - rewrite (H x Ef). cbn. by rewrite Ef, IH.
  - destruct (g x); cbn; by rewrite ?Ef, IH.
Qed.

Lemma filter_none {B} (f : B -> bool) (l : list B) :
  (forall x, x ∈ l -> f x = false) -> List.filter f l = [].
Proof.
  induction l as [|x l IH]; [done|]. intros H. cbn.
  rewrite (H x) by apply list_elem_of_here.
  apply IH. intros y Hy. apply H. by apply list_elem_of_further.
Qed.

Lemma level_value_inj (a b : LogLevel.t) :
  LogLevel.value a = LogLevel.value b -> a = b.
Proof. by destruct a, b. Qed.

End CaseFacts.

Section FilterExtras.
Import PyStr LoggerPlugin.

(** X6.  The classifier ignores the case of its input, and every level
    name, in upper or lower case, is classified as its own level. *)
Theorem from_input_case_insensitive :
  (forall s : string,
     LogLevel.from_input (Some (upper s)) = LogLevel.from_input (Some s) /\
     LogLevel.from_input (Some (lower s)) = LogLevel.from_input (Some s)) /\
  (forall l : LogLevel.t,
     LogLevel.from_input (Some (LogLevel.value l)) = Some l /\
     LogLevel.from_input (Some (lower (LogLevel.value l))) = Some l).
Proof.
  split.
  - intros s. rewrite !from_input_of_upper.
    unfold upper at 1, lower at 1. rewrite !truthy_map_chars.
    by rewrite upper_upper, upper_lower.
  - intros l. by destruct l.
Qed.

(** X7.  Filtering twice by one level changes nothing more, and
    filtering by two different concrete levels leaves nothing. *)
Theorem filter_level_idempotent_disjoint
    (logs : list (gmap string string)) (l1 l2 : LogLevel.t) :
  _filter_logs_by_level (_filter_logs_by_level logs l1) l1 =
    _filter_logs_by_level logs l1 /\
  (l1 <> LogLevel.ALL -> l2 <> LogLevel.ALL -> l1 <> l2 ->
   _filter_logs_by_level (_filter_logs_by_level logs l1) l2 = []).
Proof.
  split.
  - unfold _filter_logs_by_level. destruct (LogLevel.eqb l1 LogLevel.ALL);
      [done|]. by apply filter_filter_implied.
  - intros H1 H2 Hne.
    assert (forall l, l <> LogLevel.ALL ->
              LogLevel.eqb l LogLevel.ALL = false) as Hall
      by (intros []; done).
    unfold _filter_logs_by_level. rewrite !Hall by done.
    apply filter_none. intros log [_ Hlog]%filter_elem_of.
    apply level_is_iff in Hlog. unfold level_is. rewrite Hlog.
    apply String.eqb_neq. intros Hv. by apply level_value_inj in Hv.
Qed.

Lemma filter_level_idempotent_disjoint_witness :
  _filter_logs_by_level
    (_filter_logs_by_level
       [<["level":="ERROR"]> ∅; <["level":="INFO"]> ∅] LogLevel.ERROR)
    LogLevel.INFO = [].
Proof.
  refine (proj2 (filter_level_idempotent_disjoint
    [<["level":="ERROR"]> ∅; <["level":="INFO"]> ∅]
    LogLevel.ERROR LogLevel.INFO) _ _ _); discriminate.
Defined.

(** X8.  Filtering by level and searching by keyword commute. *)
Theorem filter_search_commute (logs : list (gmap string string))
    (level : LogLevel.t) (keyword : string) :
  matched (_filter_logs_by_level logs level) keyword =
    _filter_logs_by_level (matched logs keyword) level.
Proof.
  unfold _filter_logs_by_level, matched.
  destruct (LogLevel.eqb level LogLevel.ALL); [done|].
  apply filter_filter_comm.
Qed.

(** X9.  The search ignores the case of a keyword of 7-bit
    characters: in upper case and in lower case it selects the same
    records. *)
Theorem search_keyword_case (logs : list (gmap string string))
    (keyword : string) :
  ascii_only keyword = true ->
  matched logs (upper keyword) = matched logs keyword /\
  matched logs (lower keyword) = matched logs keyword.
Proof. intros _. unfold matched. by rewrite lower_upper, lower_lower. Qed.

Lemma search_keyword_case_witness :
  matched [<["data":="Task failed"]> ∅; <["data":="ok"]> ∅] "FAIL" =
    matched [<["data":="Task failed"]> ∅; <["data":="ok"]> ∅] "Fail".
Proof.
  exact (proj1 (search_keyword_case
                  [<["data":="Task failed"]> ∅; <["data":="ok"]> ∅] "Fail"
                  eq_refl)).
Defined.

(** X10.  A longer keyword narrows the search: when [k1] occurs in a
    keyword [k2] of 7-bit characters, every record found for [k2] is
    found for [k1], and searching for [k2] among the records found for
    [k1] loses nothing. *)
Theorem search_refines (logs : list (gmap string string))
    (k1 k2 : string) :
  ascii_only k2 = true ->
  is_substring k1 k2 ->
  matched (matched logs k1) k2 = matched logs k2 /\
  matched logs k2 `sublist_of` matched logs k1.
Proof.
  intros _ Hk.
  assert (matched (matched logs k1) k2 = matched logs k2) as H.
  { unfold matched. apply filter_filter_implied. intros log.
    rewrite !contains_iff. apply is_substring_trans.
    by apply is_substring_lower. }
  split; [done|]. rewrite <- H. apply filter_sublist.
Qed.

Lemma search_refines_witness :
  matched [<["data":="Task failed"]> ∅; <["data":="fail"]> ∅] "failed"
    `sublist_of`
  matched [<["data":="Task failed"]> ∅; <["data":="fail"]> ∅] "fail".
Proof.
  refine (proj2 (search_refines
    [<["data":="Task failed"]> ∅; <["data":="fail"]> ∅] "fail" "failed"
    _ _)).
  - reflexivity.
  - by exists EmptyString, "ed".
Defined.

End FilterExtras.

(** ** Further properties of the formatter *)

Section FormatExtras.
Import PyStr LoggerPlugin.

Lemma ansi_sub_length_le (s : string) :
  (String.length (ansi_sub s) <= String.length s)%nat.
Proof.
  remember (String.length s) as n eqn:Hn. revert s Hn.
  induction n as [n IH] using lt_wf_ind. intros s Hn.
  destruct s as [|c r]; [by subst|]. rewrite ansi_sub_cons.
  destruct (ansi_match (String c r)) as [r'|] eqn:E.
  - apply ansi_match_shorter in E.
    pose proof (IH (String.length r') ltac:(lia) r' eq_refl). lia.
  - cbn [String.length] in *.
    pose proof (IH (String.length r) ltac:(lia) r eq_refl). lia.
Qed.

Lemma ansi_sub_length_lt (s : string) :
  has_match s = true ->
  (String.length (ansi_sub s) < String.length s)%nat.
Proof.
  induction s as [|c r IH]; [done|]. cbn [has_match]. intros H.
  rewrite ansi_sub_cons.
  destruct (ansi_match (String c r)) as [r'|] eqn:E.
  - apply ansi_match_shorter in E.
    pose proof (ansi_sub_length_le r'). lia.
  - rewrite bool_decide_eq_false_2 in H by (by intros [? ?]).
    cbn [orb] in H. specialize (IH H). cbn [String.length]. lia.
Qed.

(** X11.  The formatter reads the keys [level] and [data] only: adding,
    changing or removing any other key of the record leaves the line
    unchanged. *)
Theorem format_log_reads_level_and_data (log : gmap string string)
    (k v : string) :
  k <> "level" -> k <> "data" ->
  _format_log (<[k:=v]> log) = _format_log log /\
  _format_log (delete k log) = _format_log log.
Proof.
  intros H1 H2. rewrite !format_log_unfold. cbv zeta.
  by rewrite !lookup_insert_ne, !lookup_delete_ne by done.
Qed.

Lemma format_log_reads_level_and_data_witness :
  _format_log (<["time":="12:00"]> (<["level":="DEBUG"]> ∅)) =
    _format_log (<["level":="DEBUG"]> ∅).
Proof.
  refine (proj1 (format_log_reads_level_and_data
                   (<["level":="DEBUG"]> ∅) "time" "12:00" _ _));
    discriminate.
Defined.

(** X12.  The formatter ignores the case of the level: a record formats
    the same with its level in upper case or in lower case. *)
Theorem format_log_level_case (log : gmap string string) (l : string) :
  _format_log (<["level":=upper l]> log) = _format_log (<["level":=l]> log) /\
  _format_log (<["level":=lower l]> log) = _format_log (<["level":=l]> log).
Proof.
  rewrite !format_log_unfold. cbv zeta.
  rewrite !lookup_insert_eq, !lookup_insert_ne by done.
  change (default "UNKNOWN" (Some ?x)) with x.
  by rewrite upper_upper, upper_lower.
Qed.

(** X13.  Colour codes around the text do not show: data wrapped in an
    opening and a closing escape sequence formats like the bare data. *)
Theorem format_log_colour_wrapped (log : gmap string string)
    (ps1 ps2 d : string) :
  all_params ps1 = true -> all_params ps2 = true ->
  _format_log
    (<["data":=
         String ESC (String "[" (ps1 +:+ String "m"
           (d +:+ String ESC (String "[" (ps2 +:+ String "m" EmptyString)))))]>
       log) =
  _format_log (<["data":=d]> log).
Proof.
  intros H1 H2. rewrite !format_log_unfold. cbv zeta.
  rewrite !lookup_insert_eq, !lookup_insert_ne by done.
  change (default EmptyString (Some ?x)) with x.
  pose proof (ansi_sub_removes EmptyString ps1
    (d +:+ String ESC (String "[" (ps2 +:+ String "m" EmptyString))) H1)
    as Hout.
  change (EmptyString +:+ ?x) with x in Hout. rewrite Hout.
  by rewrite (ansi_sub_removes d ps2 EmptyString H2), sapp_nil_r.
Qed.

Lemma format_log_colour_wrapped_witness :
  _format_log
    (<["data":=String ESC ("[1;31mdisk full" +:+ String ESC "[0m")]>
       (<["level":="ERROR"]> ∅)) =
  _format_log (<["data":="disk full"]> (<["level":="ERROR"]> ∅)).
Proof.
  exact (format_log_colour_wrapped (<["level":="ERROR"]> ∅)
           "1;31" "0" "disk full" eq_refl eq_refl).
Defined.

(** X14.  The substitution never lengthens the text, and it leaves the
    text as it is exactly when no position of it starts a complete
    escape sequence. *)
Theorem ansi_sub_identity_iff (s : string) :
  (String.length (ansi_sub s) <= String.length s)%nat /\
  (ansi_sub s = s <-> has_match s = false).
Proof.
  split; [apply ansi_sub_length_le|]. split; [|apply ansi_sub_no_match].
  intros H. destruct (has_match s) eqn:E; [|done].
  apply ansi_sub_length_lt in E. rewrite H in E. lia.
Qed.

Lemma ansi_sub_identity_iff_witness :
  ansi_sub (String ESC "[31 not closed") = String ESC "[31 not closed".
Proof.
  refine (proj2 (proj2 (ansi_sub_identity_iff
                          (String ESC "[31 not closed"))) _).
  reflexivity.
Defined.

End FormatExtras.

(** ** Properties of the command handlers *)

Section CommandFacts.
Import PyStr PySeq LoggerPlugin Commands.
Implicit Types (get_logs : outcome (list (gmap string string)))
  (style : option (string -> outcome string)) (log_limit : Z)
  (level limit keyword : string).

(** The reply of [on_log], by the classification of the level and the
    selection. *)
Lemma on_log_cases get_logs log_limit style level limit :
  on_log get_logs log_limit style level limit =
    match LogLevel.from_input (Some level) with
    | None => Return (plain_result ("仅支持等级：" +:+ LogLevel.choices))
    | Some l =>
        match _slice_logs
                (_filter_logs_by_level (_safe_get_logs get_logs) l)
                limit log_limit with
        | Raise ex => Throw (Uncaught ex)
        | Ok [] => Return (plain_result "暂无日志")
        | Ok sel =>
            match _t2i style (join (String LF EmptyString)
                                (List.map _format_log sel)) with
            | Throw e => Throw e
            | Return p => Return (chain_result [Image_fromFileSystem p])
            end
        end
    end.
Proof.
  unfold on_log. destruct (LogLevel.from_input (Some level)) as [l|]; [|done].
  cbv zeta. destruct (_slice_logs _ limit log_limit) as [sel|ex]; [|done].
  by destruct sel.
Qed.

Lemma on_log_search_cases get_logs style keyword :
  on_log_search get_logs style keyword =
    match matched (_safe_get_logs get_logs) keyword with
    | [] => Return (plain_result ("未找到包含 `" +:+ keyword +:+ "` 的日志"))
    | sel =>
        match _t2i style (join (String LF EmptyString)
                            (List.map _format_log sel)) with
        | Throw e => Throw e
        | Return p => Return (chain_result [Image_fromFileSystem p])
        end
    end.
Proof.
  unfold on_log_search. cbv zeta.
  by destruct (matched (_safe_get_logs get_logs) keyword).
Qed.

Lemma t2i_throw style (text : string) (e : error) :
  _t2i style text = Throw e ->
  match style with
  | None => e = RuntimeError "pillowmd 未初始化"
  | Some render => exists text', render text' = Throw e
  end.
Proof.
  destruct style as [render|]; cbn; [by eexists|]. by intros [= <-].
Qed.

(** X15.  A level that the classifier does not know stops [on_log] (log)
    before anything else: whatever the logs, the limit and the renderer
    are, the reply is the text that lists the five level names. *)
Theorem on_log_rejects_unknown_level get_logs log_limit style level limit :
  LogLevel.from_input (Some level) = None ->
  on_log get_logs log_limit style level limit =
    Return (plain_result "仅支持等级：ALL / DEBUG / INFO / WARNING / ERROR").
Proof.
  intros H. by rewrite on_log_cases, H.
Qed.

Lemma on_log_rejects_unknown_level_witness :
  on_log (Return [<["level":="ERROR"]> ∅]) 5 None "warn" "3" =
    Return (plain_result "仅支持等级：ALL / DEBUG / INFO / WARNING / ERROR").
Proof.
  exact (on_log_rejects_unknown_level
           (Return [<["level":="ERROR"]> ∅]) 5 None "warn" "3" eq_refl).
Defined.

(** X16.  A failure of the host to hand out the logs is swallowed: both
    handlers behave as on an empty log.  [on_log_search] answers that
    nothing was found; [on_log], for a known level, answers that there
    are no logs whenever the slicing of the empty list returns, as it
    does for the empty limit.  Neither needs the renderer. *)
Theorem handlers_swallow_retrieval_failure (e : error) log_limit style
    level limit keyword :
  on_log (Throw e) log_limit style level limit =
    on_log (Return []) log_limit style level limit /\
  (forall l sel,
     LogLevel.from_input (Some level) = Some l ->
     _slice_logs (@nil (gmap string string)) limit log_limit = Ok sel ->
     on_log (Throw e) log_limit style level limit =
       Return (plain_result "暂无日志")) /\
  (forall l,
     LogLevel.from_input (Some level) = Some l ->
     on_log (Throw e) log_limit style level EmptyString =
       Return (plain_result "暂无日志")) /\
  on_log_search (Throw e) style keyword =
    Return (plain_result ("未找到包含 `" +:+ keyword +:+ "` 的日志")).
Proof.
  assert (forall lim l sel,
            LogLevel.from_input (Some level) = Some l ->
            _slice_logs (@nil (gmap string string)) lim log_limit = Ok sel ->
            on_log (Throw e) log_limit style level lim =
              Return (plain_result "暂无日志")) as H.
  { intros lim l sel Hl Hs. rewrite on_log_cases, Hl.
    assert (_filter_logs_by_level (_safe_get_logs (Throw e)) l = []) as ->
      by (by destruct l).
    rewrite Hs.
    apply slice_logs_is_slice in Hs as (s & e' & ->).
    destruct (slice_infix (@nil (gmap string string)) s e')
      as (pre & post & Hnil).
    symmetry in Hnil. apply app_eq_nil in Hnil as [_ Hnil].
    by apply app_eq_nil in Hnil as [-> _]. }
  split; [done|]. split; [by apply H|]. split; [|done].
  intros l Hl. by apply (H EmptyString l (slice [] (Some (- log_limit)) None)).
Qed.

Lemma handlers_swallow_retrieval_failure_witness :
  on_log (Throw (HostError "down")) 5 None "error" "2-4" =
    Return (plain_result "暂无日志").
Proof.
  exact (proj1 (proj2 (handlers_swallow_retrieval_failure
                         (HostError "down") 5 None "error" "2-4"
                         EmptyString))
           LogLevel.ERROR [] eq_refl eq_refl).
Defined.

(** X17.  [on_log] replies with an image exactly when the level is
    known, the records selected by filter and slice are not empty, a
    style is loaded and rendering succeeds; the image is the rendering
    of the selected records' lines joined by newlines. *)
Theorem on_log_image_iff get_logs log_limit style level limit
    (chain : list component) :
  on_log get_logs log_limit style level limit = Return (chain_result chain)
  <->
  exists l sel render path,
    LogLevel.from_input (Some level) = Some l /\
    _slice_logs (_filter_logs_by_level (_safe_get_logs get_logs) l)
      limit log_limit = Ok sel /\
    sel <> [] /\
    style = Some render /\
    render (join (String LF EmptyString) (List.map _format_log sel)) =
      Return path /\
    chain = [Image_fromFileSystem path].
Proof.
  rewrite on_log_cases. split.
  - destruct (LogLevel.from_input (Some level)) as [l|]; [|done].
    destruct (_slice_logs _ limit log_limit) as [sel|ex] eqn:Hs; [|done].
    destruct sel as [|x sel]; [done|].
    destruct style as [render|]; [|done]. cbn [_t2i].
    destruct (render _) as [path|] eqn:Hr; [|done].
    intros [= <-]. by exists l, (x :: sel), render, path.
  - intros (l & sel & render & path & Hl & Hs & Hne & -> & Hr & ->).
    rewrite Hl, Hs.
    destruct sel as [|x sel]; [done|]. cbn [_t2i]. by rewrite Hr.
Qed.

Lemma on_log_image_iff_witness :
  exists l sel render path,
    LogLevel.from_input (Some "debug") = Some l /\
    _slice_logs
      (_filter_logs_by_level
         (_safe_get_logs (Return [<["level":="DEBUG"]> ∅])) l)
      "1" 5 = Ok sel /\
    sel <> [] /\
    Some (fun text : string => Return ("img:" +:+ text)) = Some render /\
    render (join (String LF EmptyString) (List.map _format_log sel)) =
      Return path /\
    [Image_fromFileSystem "img:"] = [Image_fromFileSystem path].
Proof.
  apply (proj1 (on_log_image_iff (Return [<["level":="DEBUG"]> ∅]) 5
                  (Some (fun text : string => Return ("img:" +:+ text)))
                  "debug" "1" [Image_fromFileSystem "img:"])).
  reflexivity.
Defined.

(** X18.  [on_log] replies with plain text in two cases only: the level
    is unknown (the text lists the level names), or the level is known
    and the selection is empty (the text says there are no logs). *)
Theorem on_log_plain_iff get_logs log_limit style level limit
    (text : string) :
  on_log get_logs log_limit style level limit = Return (plain_result text)
  <->
  (LogLevel.from_input (Some level) = None /\
   text = "仅支持等级：ALL / DEBUG / INFO / WARNING / ERROR") \/
  (exists l,
     LogLevel.from_input (Some level) = Some l /\
     _slice_logs (_filter_logs_by_level (_safe_get_logs get_logs) l)
       limit log_limit = Ok [] /\
     text = "暂无日志").
Proof.
  rewrite on_log_cases. split.
  - destruct (LogLevel.from_input (Some level)) as [l|].
    + destruct (_slice_logs _ limit log_limit) as [sel|ex] eqn:Hs; [|done].
      destruct sel as [|x sel].
      * intros [= <-]. right. by exists l.
      * by destruct (_t2i style _).
    + intros [= <-]. by left.
  - intros [[Hl ->]|(l & Hl & Hs & ->)]; rewrite Hl; [done|].
    by rewrite Hs.
Qed.

Lemma on_log_plain_iff_witness :
  on_log (Return [<["level":="INFO"]> ∅]) 5 None "error" EmptyString =
    Return (plain_result "暂无日志").
Proof.
  apply (proj2 (on_log_plain_iff (Return [<["level":="INFO"]> ∅]) 5 None
                  "error" EmptyString "暂无日志")).
  right. exists LogLevel.ERROR. repeat split; reflexivity.
Defined.

(** X19.  An exception out of a handler has one of three origins.  Out
    of [on_log] it is the exception that [_slice_logs] raised on the
    limit argument, or the [RuntimeError] of the missing style, or one
    that the renderer raised; out of [on_log_search], which does not
    slice, only the last two. *)
Theorem handlers_raise_from_slicing_or_rendering get_logs log_limit style
    level limit keyword (e : error) :
  (on_log get_logs log_limit style level limit = Throw e ->
   (exists l ex,
      LogLevel.from_input (Some level) = Some l /\
      _slice_logs (_filter_logs_by_level (_safe_get_logs get_logs) l)
        limit log_limit = Raise ex /\
      e = Uncaught ex) \/
   match style with
   | None => e = RuntimeError "pillowmd 未初始化"
   | Some render => exists text, render text = Throw e
   end) /\
  (on_log_search get_logs style keyword = Throw e ->
   match style with
   | None => e = RuntimeError "pillowmd 未初始化"
   | Some render => exists text, render text = Throw e
   end).
Proof.
  split.
  - rewrite on_log_cases.
    destruct (LogLevel.from_input (Some level)) as [l|]; [|done].
    destruct (_slice_logs _ limit log_limit) as [sel|ex] eqn:Hs.
    + destruct sel as [|x sel]; [done|].
      destruct (_t2i style _) as [p|e'] eqn:Ht; [done|].
      intros [= ->]. right. by eapply t2i_throw.
    + intros [= <-]. left. by exists l, ex.
  - rewrite on_log_search_cases.
    destruct (matched _ keyword) as [|x sel]; [done|].
    destruct (_t2i style _) as [p|e'] eqn:Ht; [done|].
    intros [= ->]. by eapply t2i_throw.
Qed.

Lemma handlers_raise_from_slicing_or_rendering_witness :
  exists text : string,
    (fun _ : string => @Throw string (HostError "disk full")) text =
      Throw (HostError "disk full").
Proof.
  refine (proj2 (handlers_raise_from_slicing_or_rendering
                   (Return [<["data":="boot ok"]> ∅]) 5
                   (Some (fun _ => Throw (HostError "disk full")))
                   "all" EmptyString "boot" (HostError "disk full")) _).
  reflexivity.
Defined.

(** X20.  With no limit argument and a positive [log_limit], [on_log]
    filters first and cuts afterwards: it shows the last [log_limit]
    records among those of the requested level, however old they are. *)
Theorem on_log_default_limit get_logs log_limit style level
    (l : LogLevel.t) :
  LogLevel.from_input (Some level) = Some l ->
  0 < log_limit ->
  on_log get_logs log_limit style level EmptyString =
    match last_n (Z.to_nat log_limit)
            (_filter_logs_by_level (_safe_get_logs get_logs) l) with
    | [] => Return (plain_result "暂无日志")
    | sel =>
        match _t2i style (join (String LF EmptyString)
                            (List.map _format_log sel)) with
        | Throw e => Throw e
        | Return p => Return (chain_result [Image_fromFileSystem p])
        end
    end.
Proof.
  intros Hl Hd.
  rewrite on_log_cases, Hl, slice_logs_empty, slice_tail_pos by done.
  by destruct (last_n _ _).
Qed.

Lemma on_log_default_limit_witness :
  on_log
    (Return [<["level":="ERROR"]> (<["data":="a"]> ∅);
             <["level":="INFO"]> (<["data":="b"]> ∅);
             <["level":="ERROR"]> (<["data":="c"]> ∅);
             <["level":="INFO"]> (<["data":="d"]> ∅)])
    1 (Some (fun text : string => Return text)) "info" EmptyString =
  Return (chain_result [Image_fromFileSystem "> d"]).
Proof.
  refine (on_log_default_limit _ 1 _ "info" LogLevel.INFO _ _);
    reflexivity.
Defined.

(** X21.  [on_log_search] answers "not found" exactly when no record
    matches, quoting the keyword as it was typed; with the empty keyword
    and a log that is not empty it renders every record. *)
Theorem on_log_search_replies get_logs style keyword :
  (forall text : string,
     on_log_search get_logs style keyword = Return (plain_result text) <->
     matched (_safe_get_logs get_logs) keyword = [] /\
     text = "未找到包含 `" +:+ keyword +:+ "` 的日志") /\
  (forall logs : list (gmap string string),
     logs <> [] ->
     on_log_search (Return logs) style EmptyString =
       match _t2i style (join (String LF EmptyString)
                           (List.map _format_log logs)) with
       | Throw e => Throw e
       | Return p => Return (chain_result [Image_fromFileSystem p])
       end).
Proof.
  split.
  - intros text. rewrite on_log_search_cases.
    destruct (matched _ keyword) as [|x sel].
    + split; [by intros [= <-]|by intros [_ ->]].
    + split; [by destruct (_t2i style _)|by intros [? _]].
  - intros logs Hne. rewrite on_log_search_cases.
    assert (matched (_safe_get_logs (Return logs)) EmptyString = logs) as ->.
    { apply filter_all. intros log. apply contains_nil. }
    by destruct logs.
Qed.

Lemma on_log_search_replies_witness :
  on_log_search (Return [<["data":="started"]> ∅]) None "Crash" =
    Return (plain_result "未找到包含 `Crash` 的日志").
Proof.
  apply (proj2 (proj1 (on_log_search_replies
                         (Return [<["data":="started"]> ∅]) None "Crash")
                  _)).
  split; reflexivity.
Defined.

(** X22.  When loading the style failed at start-up, every request
    that has something to show ends in the [RuntimeError] of [_t2i]:
    [on_log] with a known level and a selection that is not empty, and
    [on_log_search] with at least one match. *)
Theorem handlers_without_style (e0 : error) get_logs log_limit level limit
    keyword :
  (forall l sel,
     LogLevel.from_input (Some level) = Some l ->
     _slice_logs (_filter_logs_by_level (_safe_get_logs get_logs) l)
       limit log_limit = Ok sel ->
     sel <> [] ->
     on_log get_logs log_limit (initialize (Throw e0)) level limit =
       Throw (RuntimeError "pillowmd 未初始化")) /\
  (matched (_safe_get_logs get_logs) keyword <> [] ->
   on_log_search get_logs (initialize (Throw e0)) keyword =
     Throw (RuntimeError "pillowmd 未初始化")).
Proof.
  split.
  - intros l sel Hl Hs Hne. rewrite on_log_cases, Hl, Hs.
    by destruct sel.
  - intros Hne. rewrite on_log_search_cases.
    by destruct (matched _ keyword).
Qed.

Lemma handlers_without_style_witness :
  on_log_search (Return [<["data":="boot ok"]> ∅])
    (initialize (Throw (HostError "no pillowmd"))) "OK" =
    Throw (RuntimeError "pillowmd 未初始化").
Proof.
  refine (proj2 (handlers_without_style (HostError "no pillowmd")
                   (Return [<["data":="boot ok"]> ∅]) 0 EmptyString
                   EmptyString "OK") _).
  discriminate.
Defined.

(** X25.  A count that passes [isdigit] and that [int] refuses ends
    [_slice_logs], and with it [on_log] for a known level, in the
    exception of [int]: nothing is replied, whatever the logs are and
    before the renderer is reached. *)
Theorem on_log_unreadable_count get_logs log_limit style level limit
    (l : LogLevel.t) (ex : exn) :
  LogLevel.from_input (Some level) = Some l ->
  isdigit (strip limit) = true ->
  int (strip limit) = Raise ex ->
  (forall logs : list (gmap string string),
     _slice_logs logs limit log_limit = Raise ex) /\
  on_log get_logs log_limit style level limit = Throw (Uncaught ex).
Proof.
  intros Hl Hd Hi.
  assert (forall logs : list (gmap string string),
            _slice_logs logs limit log_limit = Raise ex) as H.
  { intros logs. by rewrite slice_logs_strip, slice_logs_count, Hi. }
  split; [done|]. by rewrite on_log_cases, Hl, H.
Qed.

Lemma on_log_unreadable_count_witness :
  on_log (Return []) 5 None "all" (repeat "7" 4301) =
    Throw (Uncaught ValueError).
Proof.
  refine (proj2 (on_log_unreadable_count (Return []) 5 None "all"
                   (repeat "7" 4301) LogLevel.ALL ValueError _ _ _)).
  - reflexivity.
  - by vm_compute.
  - by vm_compute.
Defined.

End CommandFacts.
